(** * Food-delivery backend: cart, checkout, trending and rating logic

    A shallow embedding of the decision logic of the Express/Mongoose
    backend: the Mongoose models (Food, Shop, Cart, Order), the cart
    router (add, update, remove, clear, summary, checkout), the
    [updateRating] method of the Shop model and the aggregation pipeline
    behind [GET /trending].

    Modelling conventions.
    - A JavaScript [Number] is an exact rational ([Q]); the non-finite
      values and the rounding of IEEE doubles are not represented.
      Numeric equality is [Qeq] (written [==]).
    - An [ObjectId] is its hexadecimal string; a [Date] is its number of
      milliseconds since the epoch.
    - A collection is the list of its documents in natural order; a
      document is identified by its position, [findOne] returns the
      first match.
    - A handler runs at one instant [now]: every [Date.now()] and
      [new Date()] evaluated while serving a request reads [now].
    - A handler maps the store and the request to a response and the new
      store; an exception inside the [try] block becomes the 500
      response of the [catch] block. *)

From Stdlib Require Import QArith Qround Lqa Qminmax.
From stdpp Require Import base decidable option list strings pretty sorting.

Local Open Scope Z_scope.
Local Open Scope string_scope.
Local Open Scope list_scope.

(** ** JavaScript values *)

Definition ObjectId := string.
Definition Number := Q.
Definition Date := Z.
Bind Scope Q_scope with Number.
Bind Scope Z_scope with Date.

(** Truthiness of a string-valued request field: [undefined] and the
    empty string are both falsy and both written [""]. *)
Definition falsy (s : string) : bool := bool_decide (s = "").

Definition Qlt_bool (x y : Q) : bool := negb (Qle_bool y x).

(** [Math.round]: the nearest integer, ties towards plus infinity. *)
Definition Math_round (x : Number) : Number := inject_Z (Qfloor (x + (1 # 2))).

(** What the [try] blocks can catch. *)
Inductive Exn :=
| TypeError (msg : string)
| ValidationError (msg : string)
| DuplicateKeyError (msg : string).

Definition Exn_message (e : Exn) : string :=
  match e with
  | TypeError m => m
  | ValidationError m => m
  | DuplicateKeyError m => m
  end.

(** The value of a property read on a Mongoose document. *)
Inductive js_read (A : Type) :=
| Undefined
| Value (a : A).
Arguments Undefined {A}.
Arguments Value {A} a.

(** [v.toString()] *)
Definition toString (v : js_read ObjectId) : Exn + string :=
  match v with
  | Undefined => inl (TypeError "Cannot read properties of undefined (reading 'toString')")
  | Value s => inr s
  end.

(** [!v] on a boolean-valued read: [undefined] is falsy. *)
Definition js_not (v : js_read bool) : bool :=
  match v with
  | Undefined => true
  | Value b => negb b
  end.

(** ** Models *)

Module Food.
(** FoodSchema. The declared paths are exactly the fields below. *)
Record t := mk {
  _id : ObjectId;
  name : string;
  cooking_time : Number;
  price : Number;
  instock : bool;
  veg : bool;
  beverage : bool;
  cuisine : string;
  order_num : Number;
  image : string;
  menu_category : Number;
  shopid : Number;
  createdBy : option ObjectId;
  createdAt : Date;
  updatedAt : option Date
}.

(** The cart router reads [food.shop] and [food.available]. Mongoose
    defines an accessor on a document for each declared schema path
    only, and FoodSchema declares neither [shop] nor [available] (it
    declares [shopid] and [instock]): both reads give [undefined],
    whatever the document holds. *)
Definition shop (f : t) : js_read ObjectId := Undefined.
Definition available (f : t) : js_read bool := Undefined.
End Food.

Module Shop.
Record Rating := mkRating { average : Number; count : Number }.

(** shopSchema, restricted to the paths the modelled operations read
    or write. [coordinates] is [longitude, latitude]. *)
Record t := mk {
  _id : ObjectId;
  name : string;
  coordinates : option (Number * Number);
  rating : Rating;
  online : bool;
  isActive : bool;
  isVerified : bool;
  isFeatured : bool
}.
End Shop.

Module CartItem.
(** cartItemSchema *)
Record t := mk {
  food : ObjectId;
  shop : ObjectId;
  quantity : Number;
  price : Number;
  subtotal : Number
}.
End CartItem.

Module Cart.
(** cartSchema *)
Record t := mk {
  user : ObjectId;
  items : list CartItem.t;
  totalAmount : Number;
  isCheckedOut : bool;
  createdAt : Date;
  updatedAt : option Date
}.

(** [this.items.reduce((sum, item) => sum + item.subtotal, 0)] *)
Definition reduce_subtotals (its : list CartItem.t) : Number :=
  foldl (fun sum item => (sum + CartItem.subtotal item)%Q) 0%Q its.

(** cartSchema.pre('save'): recompute the total, stamp the document. *)
Definition pre_save (now : Date) (c : t) : t :=
  {| user := user c;
     items := items c;
     totalAmount := reduce_subtotals (items c);
     isCheckedOut := isCheckedOut c;
     createdAt := createdAt c;
     updatedAt := Some now |}.

(** [new Cart({ user, items: [] })] with the schema defaults. *)
Definition new (now : Date) (u : ObjectId) : t :=
  {| user := u; items := []; totalAmount := 0%Q; isCheckedOut := false;
     createdAt := now; updatedAt := None |}.

Definition set_items (its : list CartItem.t) (c : t) : t :=
  {| user := user c; items := its; totalAmount := totalAmount c;
     isCheckedOut := isCheckedOut c; createdAt := createdAt c;
     updatedAt := updatedAt c |}.

Definition set_isCheckedOut (b : bool) (c : t) : t :=
  {| user := user c; items := items c; totalAmount := totalAmount c;
     isCheckedOut := b; createdAt := createdAt c;
     updatedAt := updatedAt c |}.

(** The validator of cartItemSchema that can fail on a number:
    [quantity: { min: 1 }]. *)
Definition validate_item (it : CartItem.t) : bool :=
  Qle_bool 1 (CartItem.quantity it).
End Cart.

Module Order.
Inductive Status :=
| pending | confirmed | preparing | out_for_delivery | delivered | cancelled.

Inductive PaymentStatus :=
| payment_pending | payment_completed | payment_failed | payment_refunded.

#[global] Instance Status_eq_dec : EqDecision Status.
Proof. solve_decision. Defined.

#[global] Instance PaymentStatus_eq_dec : EqDecision PaymentStatus.
Proof. solve_decision. Defined.

Record Address := mkAddress {
  street : string;
  city : string;
  state : string;
  pincode : string;
  landmark : option string
}.

(** orderItemSchema *)
Record Item := mkItem {
  foodId : ObjectId;
  quantity : Number;
  price : Number;
  subtotal : Number;
  foodName : string
}.

(** OrderSchema *)
Record t := mk {
  userId : ObjectId;
  shopId : ObjectId;
  orderId : option string;
  items : list Item;
  totalAmount : Number;
  deliveryFee : Number;
  taxes : Number;
  grandTotal : Number;
  deliveryTime : option Number;
  status : Status;
  paymentMethod : string;
  paymentStatus : PaymentStatus;
  paymentId : option string;
  deliveryAddress : Address;
  phoneNumber : string;
  estimatedDeliveryTime : option Date;
  createdAt : Date
}.

(** [paymentMethod: { enum: ['cod', 'card', 'upi', 'wallet'] }] *)
Definition paymentMethod_enum : list string := ["cod"; "card"; "upi"; "wallet"].

Definition validate_item (it : Item) : bool :=
  negb (falsy (foodId it)) && Qle_bool 1 (quantity it) && negb (falsy (foodName it)).

(** The [required], [enum] and [min] validators of OrderSchema. *)
Definition validate (o : t) : bool :=
  negb (falsy (userId o)) && negb (falsy (shopId o))
  && bool_decide (paymentMethod o ∈ paymentMethod_enum)
  && negb (falsy (street (deliveryAddress o)))
  && negb (falsy (city (deliveryAddress o)))
  && negb (falsy (state (deliveryAddress o)))
  && negb (falsy (pincode (deliveryAddress o)))
  && negb (falsy (phoneNumber o))
  && forallb validate_item (items o).

(** [n.toString().padStart(3, '0')] for a natural number. *)
Definition padStart3 (n : N) : string :=
  let s := pretty n in
  match String.length s with
  | 1%nat => "00" +:+ s
  | 2%nat => "0" +:+ s
  | _ => s
  end.

Definition set_orderId (oid : option string) (o : t) : t :=
  {| userId := userId o; shopId := shopId o; orderId := oid;
     items := items o; totalAmount := totalAmount o;
     deliveryFee := deliveryFee o; taxes := taxes o;
     grandTotal := grandTotal o; deliveryTime := deliveryTime o;
     status := status o; paymentMethod := paymentMethod o;
     paymentStatus := paymentStatus o; paymentId := paymentId o;
     deliveryAddress := deliveryAddress o; phoneNumber := phoneNumber o;
     estimatedDeliveryTime := estimatedDeliveryTime o;
     createdAt := createdAt o |}.

(** OrderSchema.pre('save') on a new document; [random] is the value
    of [Math.floor(Math.random() * 1000)]. *)
Definition pre_save (now : Date) (random : N) (o : t) : t :=
  match orderId o with
  | Some _ => o
  | None => set_orderId (Some ("ORD" +:+ pretty now +:+ padStart3 random)) o
  end.

(** [order.save()] of a new document: validation, the pre-save hook,
    then the insertion, which the unique index on [orderId] can refuse. *)
Definition save (now : Date) (random : N) (orders : list t) (o : t)
  : Exn + (t * list t) :=
  if validate o then
    let o' := pre_save now random o in
    if bool_decide (Exists (fun p => orderId p = orderId o') orders)
    then inl (DuplicateKeyError "E11000 duplicate key error")
    else inr (o', orders ++ [o'])
  else inl (ValidationError "Order validation failed").
End Order.

(** ** The store *)

Record DB := mkDB {
  foods : list Food.t;
  shops : list Shop.t;
  carts : list Cart.t;
  orders : list Order.t
}.

Definition set_carts (cs : list Cart.t) (db : DB) : DB :=
  {| foods := foods db; shops := shops db; carts := cs; orders := orders db |}.

Definition set_orders (os : list Order.t) (db : DB) : DB :=
  {| foods := foods db; shops := shops db; carts := carts db; orders := os |}.

(** [Food.findById(id)] *)
Definition Food_findById (fs : list Food.t) (id : ObjectId) : option Food.t :=
  snd <$> list_find (fun f => Food._id f = id) fs.

(** [Shop.findById(id)], as [populate] performs it. *)
Definition Shop_findById (ss : list Shop.t) (id : ObjectId) : option Shop.t :=
  snd <$> list_find (fun s => Shop._id s = id) ss.

(** [Cart.findOne({ user, isCheckedOut: false })]: the position and the
    document of the user's first open cart. *)
Definition Cart_findOne (cs : list Cart.t) (u : ObjectId) : option (nat * Cart.t) :=
  list_find (fun c => Cart.user c = u ∧ Cart.isCheckedOut c = false) cs.

(** [cart.save()]: Mongoose validates the subdocuments that are new or
    modified ([touched]), runs the pre-save hook and writes the
    document, in place ([Some i]) or as a new one ([None]). *)
Definition Cart_save (now : Date) (cs : list Cart.t) (slot : option nat)
    (c : Cart.t) (touched : list CartItem.t) : Exn + (Cart.t * list Cart.t) :=
  if forallb Cart.validate_item touched then
    let c' := Cart.pre_save now c in
    inr (c', match slot with
             | Some i => <[i := c']> cs
             | None => cs ++ [c']
             end)
  else inl (ValidationError "Cart validation failed").

(** ** Responses *)

Inductive Payload :=
| NoData
| CartView (items : list CartItem.t) (totalAmount : Number) (itemCount : nat)
| CartData (c : Cart.t)
| OrderData (order : Order.t) (paymentStatus : Order.PaymentStatus)
            (estimatedDelivery : option Date)
| ErrorData (error : string).

Record Response := mkResponse {
  status : Z;
  success : bool;
  message : string;
  data : Payload
}.

(** [res.json({ success: true, ... })] *)
Definition ok (msg : string) (d : Payload) : Response :=
  {| status := 200; success := true; message := msg; data := d |}.

(** [res.status(code).json({ success: false, message })] *)
Definition fail (code : Z) (msg : string) : Response :=
  {| status := code; success := false; message := msg; data := NoData |}.

(** The [catch] block of a handler. *)
Definition caught (msg : string) (e : Exn) : Response :=
  {| status := 500; success := false; message := msg;
     data := ErrorData (Exn_message e) |}.

(** ** The cart router *)

Module CartRouter.

(** GET /: the open cart as the client sees it; no cart reads as an
    empty one. *)
Definition get (db : DB) (user : ObjectId) : Response :=
  match Cart_findOne (carts db) user with
  | None => ok "" (CartView [] 0%Q 0)
  | Some (_, cart) =>
      ok "" (CartView (Cart.items cart) (Cart.totalAmount cart)
                      (length (Cart.items cart)))
  end.

(** The body of POST /add: [{ foodId, shopId, quantity = 1 }]. *)
Record AddBody := mkAddBody {
  foodId : string;
  shopId : string;
  quantity : option Number
}.

(** The line of an existing item after [quantity += quantity] and
    [subtotal = quantity * price]; the stored unit price is kept. *)
Definition merge_line (quantity price : Number) (it : CartItem.t) : CartItem.t :=
  {| CartItem.food := CartItem.food it;
     CartItem.shop := CartItem.shop it;
     CartItem.quantity := (CartItem.quantity it + quantity)%Q;
     CartItem.price := CartItem.price it;
     CartItem.subtotal := ((CartItem.quantity it + quantity) * price)%Q |}.

(** Merge into the first line of the same food and shop, or push a new
    line; returns the new item list and the line that was written. *)
Definition add_line (foodId shopId : ObjectId) (quantity price : Number)
    (its : list CartItem.t) : list CartItem.t * CartItem.t :=
  match list_find (fun it => CartItem.food it = foodId ∧ CartItem.shop it = shopId) its with
  | Some (existingItemIndex, it) =>
      let it' := merge_line quantity price it in
      (<[existingItemIndex := it']> its, it')
  | None =>
      let it' := {| CartItem.food := foodId; CartItem.shop := shopId;
                    CartItem.quantity := quantity; CartItem.price := price;
                    CartItem.subtotal := (price * quantity)%Q |} in
      (its ++ [it'], it')
  end.

(** The rest of POST /add once the food has passed the checks: find or
    create the open cart, merge or push the line, save, respond. *)
Definition add_commit (db : DB) (user : ObjectId) (foodId shopId : ObjectId)
    (quantity price : Number) (now : Date) : Response * DB :=
  let '(slot, cart) :=
    match Cart_findOne (carts db) user with
    | Some (i, c) => (Some i, c)
    | None => (None, Cart.new now user)
    end in
  let '(its, written) := add_line foodId shopId quantity price (Cart.items cart) in
  match Cart_save now (carts db) slot (Cart.set_items its cart) [written] with
  | inl e => (caught "Error adding item to cart" e, db)
  | inr (cart', carts') =>
      (ok "Item added to cart successfully" (CartData cart'), set_carts carts' db)
  end.

(** POST /add *)
Definition add (db : DB) (user : ObjectId) (body : AddBody) (now : Date)
  : Response * DB :=
  let quantity := default 1%Q (quantity body) in
  if falsy (foodId body) || falsy (shopId body) then
    (fail 400 "Food ID and Shop ID are required", db)
  else
    match Food_findById (foods db) (foodId body) with
    | None => (fail 404 "Food item not found", db)
    | Some food =>
        match toString (Food.shop food) with
        | inl e => (caught "Error adding item to cart" e, db)
        | inr food_shop =>
            if negb (String.eqb food_shop (shopId body)) then
              (fail 400 "Food item does not belong to the specified shop", db)
            else if js_not (Food.available food) then
              (fail 400 "Food item is currently unavailable", db)
            else
              add_commit db user (foodId body) (shopId body) quantity
                         (Food.price food) now
        end
    end.

(** [!quantity || quantity < 1] *)
Definition bad_quantity (quantity : option Number) : bool :=
  match quantity with
  | None => true
  | Some q => Qeq_bool q 0 || Qlt_bool q 1
  end.

Definition set_quantity (quantity : Number) (it : CartItem.t) : CartItem.t :=
  {| CartItem.food := CartItem.food it;
     CartItem.shop := CartItem.shop it;
     CartItem.quantity := quantity;
     CartItem.price := CartItem.price it;
     CartItem.subtotal := (CartItem.price it * quantity)%Q |}.

(** [array[i]] for an integer [i]: [undefined] outside the array. *)
Definition js_index {A} (l : list A) (i : Z) : option A :=
  if (i <? 0)%Z then None else l !! Z.to_nat i.

(** PUT /update/:itemIndex. The route parameter is the decimal string of
    the integer [itemIndex]. A negative index passes the range test,
    reads [undefined] from the array, and the assignment to its
    [quantity] throws. *)
Definition update (db : DB) (user : ObjectId) (itemIndex : Z)
    (quantity : option Number) (now : Date) : Response * DB :=
  if bad_quantity quantity then (fail 400 "Quantity must be at least 1", db)
  else
    let quantity := default 1%Q quantity in
    match Cart_findOne (carts db) user with
    | None => (fail 404 "Cart not found", db)
    | Some (i, cart) =>
        if (Z.of_nat (length (Cart.items cart)) <=? itemIndex)%Z then
          (fail 404 "Item not found in cart", db)
        else
          match js_index (Cart.items cart) itemIndex with
          | None =>
              (caught "Error updating cart"
                 (TypeError "Cannot set properties of undefined (setting 'quantity')"), db)
          | Some it =>
              let it' := set_quantity quantity it in
              let cart1 := Cart.set_items (<[Z.to_nat itemIndex := it']> (Cart.items cart)) cart in
              match Cart_save now (carts db) (Some i) cart1 [it'] with
              | inl e => (caught "Error updating cart" e, db)
              | inr (cart', carts') =>
                  (ok "Cart updated successfully" (CartData cart'), set_carts carts' db)
              end
          end
    end.

(** [array.splice(start, 1)]: a negative [start] counts from the end. *)
Definition splice1 {A} (start : Z) (l : list A) : list A :=
  let len := Z.of_nat (length l) in
  let actualStart := if (start <? 0)%Z then Z.max (len + start) 0 else Z.min start len in
  let actualDeleteCount := Z.min 1 (len - actualStart) in
  take (Z.to_nat actualStart) l
  ++ drop (Z.to_nat (actualStart + actualDeleteCount)) l.

(** DELETE /remove/:itemIndex *)
Definition remove (db : DB) (user : ObjectId) (itemIndex : Z) (now : Date)
  : Response * DB :=
  match Cart_findOne (carts db) user with
  | None => (fail 404 "Cart not found", db)
  | Some (i, cart) =>
      if (Z.of_nat (length (Cart.items cart)) <=? itemIndex)%Z then
        (fail 404 "Item not found in cart", db)
      else
        let cart1 := Cart.set_items (splice1 itemIndex (Cart.items cart)) cart in
        match Cart_save now (carts db) (Some i) cart1 [] with
        | inl e => (caught "Error removing item from cart" e, db)
        | inr (cart', carts') =>
            (ok "Item removed from cart successfully" (CartData cart'),
             set_carts carts' db)
        end
  end.

(** DELETE /clear *)
Definition clear (db : DB) (user : ObjectId) (now : Date) : Response * DB :=
  match Cart_findOne (carts db) user with
  | None => (ok "Cart is already empty" NoData, db)
  | Some (i, cart) =>
      match Cart_save now (carts db) (Some i) (Cart.set_items [] cart) [] with
      | inl e => (caught "Error clearing cart" e, db)
      | inr (cart', carts') =>
          (ok "Cart cleared successfully" (CartData cart'), set_carts carts' db)
      end
  end.

(** The body of POST /checkout. *)
Record CheckoutBody := mkCheckoutBody {
  paymentMethod : string;
  deliveryAddress : option Order.Address;
  phoneNumber : string
}.

(** The simulated payment: the values of [paymentStatus] and [paymentId]
    after the [if]/[else if] on the payment method. *)
Definition simulate_payment (paymentMethod : string) (now : Date)
  : Order.PaymentStatus * option string :=
  let paymentStatus := Order.payment_pending in
  let paymentId := None in
  if String.eqb paymentMethod "cod" then
    (Order.payment_pending, Some ("COD_" +:+ pretty now))
  else if String.eqb paymentMethod "card" || String.eqb paymentMethod "upi" then
    (Order.payment_completed, Some ("PAY_" +:+ pretty now))
  else (paymentStatus, paymentId).

(** [cart.items[0].shop._id] on the populated cart: [populate] leaves
    [null] where the referenced shop does not exist. *)
Definition first_shop_id (db : DB) (its : list CartItem.t) : Exn + ObjectId :=
  match its with
  | [] => inl (TypeError "Cannot read properties of undefined (reading 'shop')")
  | it :: _ =>
      match Shop_findById (shops db) (CartItem.shop it) with
      | None => inl (TypeError "Cannot read properties of null (reading '_id')")
      | Some s => inr (Shop._id s)
      end
  end.

(** [cart.items.map(item => ({ foodId: item.food._id, ... }))] on the
    populated cart. *)
Fixpoint order_items (db : DB) (its : list CartItem.t) : Exn + list Order.Item :=
  match its with
  | [] => inr []
  | it :: rest =>
      match Food_findById (foods db) (CartItem.food it) with
      | None => inl (TypeError "Cannot read properties of null (reading '_id')")
      | Some f =>
          match order_items db rest with
          | inl e => inl e
          | inr os =>
              inr ({| Order.foodId := Food._id f;
                      Order.quantity := CartItem.quantity it;
                      Order.price := CartItem.price it;
                      Order.subtotal := CartItem.subtotal it;
                      Order.foodName := Food.name f |} :: os)
          end
      end
  end.

(** [new Order({ ... })] *)
Definition new_order (db : DB) (user : ObjectId) (cart : Cart.t)
    (paymentMethod : string) (address : Order.Address) (phoneNumber : string)
    (now : Date) : Exn + Order.t :=
  let deliveryFee := 50%Q in
  let taxes := Math_round (Cart.totalAmount cart * 0.05)%Q in
  let grandTotal := (Cart.totalAmount cart + deliveryFee + taxes)%Q in
  let '(paymentStatus, paymentId) := simulate_payment paymentMethod now in
  match first_shop_id db (Cart.items cart) with
  | inl e => inl e
  | inr shop =>
      match order_items db (Cart.items cart) with
      | inl e => inl e
      | inr its =>
          inr {| Order.userId := user;
                 Order.shopId := shop;
                 Order.orderId := None;
                 Order.items := its;
                 Order.totalAmount := Cart.totalAmount cart;
                 Order.deliveryFee := deliveryFee;
                 Order.taxes := taxes;
                 Order.grandTotal := grandTotal;
                 Order.deliveryTime := Some 45%Q;
                 Order.status := Order.confirmed;
                 Order.paymentMethod := paymentMethod;
                 Order.paymentStatus := paymentStatus;
                 Order.paymentId := paymentId;
                 Order.deliveryAddress := address;
                 Order.phoneNumber := phoneNumber;
                 Order.estimatedDeliveryTime := Some (now + 45 * 60 * 1000)%Z;
                 Order.createdAt := now |}
      end
  end.

(** POST /checkout. The order is saved first, the cart is flagged and
    saved afterwards. *)
Definition checkout (db : DB) (user : ObjectId) (body : CheckoutBody)
    (now : Date) (random : N) : Response * DB :=
  match deliveryAddress body with
  | None =>
      (fail 400 "Payment method, delivery address, and phone number are required", db)
  | Some address =>
      if falsy (paymentMethod body) || falsy (phoneNumber body) then
        (fail 400 "Payment method, delivery address, and phone number are required", db)
      else
        match Cart_findOne (carts db) user with
        | None => (fail 400 "Cart is empty", db)
        | Some (i, cart) =>
            if bool_decide (length (Cart.items cart) = 0%nat) then
              (fail 400 "Cart is empty", db)
            else
              match new_order db user cart (paymentMethod body) address
                              (phoneNumber body) now with
              | inl e => (caught "Error processing checkout" e, db)
              | inr order =>
                  match Order.save now random (orders db) order with
                  | inl e => (caught "Error processing checkout" e, db)
                  | inr (order', orders') =>
                      let db1 := set_orders orders' db in
                      match Cart_save now (carts db1) (Some i)
                                      (Cart.set_isCheckedOut true cart) [] with
                      | inl e => (caught "Error processing checkout" e, db1)
                      | inr (_, carts') =>
                          (ok "Order placed successfully!"
                              (OrderData order' (Order.paymentStatus order')
                                         (Order.estimatedDeliveryTime order')),
                           set_carts carts' db1)
                      end
                  end
              end
        end
  end.

End CartRouter.

(** ** The Shop model's rating method *)







(** ** The trending pipeline of the shop router *)

Module Trending.

(** A shop as it flows through the pipeline. [distance] is the field
    written by [$geoNear], in metres. *)
Record Doc := mkDoc {
  shop : Shop.t;
  distance : Number;
  weeklyStats : list (Number * Number);
  trendingScore : Number;
  weeklyOrders : Number
}.

Definition week_ms : Z := 7 * 24 * 60 * 60 * 1000.

Definition by_distance (x y : Doc) : Prop := Qle_bool (distance x) (distance y) = true.

#[local] Instance by_distance_dec (x y : Doc) : Decision (by_distance x y) :=
  decide (Qle_bool (distance x) (distance y) = true).

(** [$geoNear]: the active, verified, online shops within 15 km of the
    query point, nearest first. The spherical distance is computed by
    the database; [dist] gives it for each shop. *)
Definition geoNear (dist : Shop.t -> Number) (ss : list Shop.t) : list Doc :=
  merge_sort by_distance
    (List.map
       (fun s => {| shop := s; distance := dist s; weeklyStats := [];
                    trendingScore := 0%Q; weeklyOrders := 0%Q |})
       (List.filter
          (fun s => Shop.isActive s && Shop.isVerified s && Shop.online s
                    && Qle_bool (dist s) 15000)
          ss)).

(** The [$match] of the [$lookup] sub-pipeline. [shopId] is the variable
    bound by [let: { shopId: '$_id' }]; the expression
    [{ $eq: ['$shopId', '$shopId'] }] compares the order's own field
    with itself and does not mention the variable. *)
Definition lookup_match (now : Date) (shopId : ObjectId) (o : Order.t) : bool :=
  String.eqb (Order.shopId o) (Order.shopId o)
  && bool_decide (Order.status o = Order.delivered)
  && (now - week_ms <=? Order.createdAt o)%Z.

(** [$group: { _id: null, orderCount: { $sum: 1 },
               totalRevenue: { $sum: '$totalAmount' } }]:
    one group when there is a matching order, none otherwise. *)
Definition group (os : list Order.t) : list (Number * Number) :=
  match os with
  | [] => []
  | _ => [(inject_Z (Z.of_nat (length os)),
           foldl (fun acc o => (acc + Order.totalAmount o)%Q) 0%Q os)]
  end.

(** [$lookup ... as: 'weeklyStats'] *)
Definition lookup (now : Date) (os : list Order.t) (d : Doc) : Doc :=
  {| shop := shop d; distance := distance d;
     weeklyStats := group (List.filter (lookup_match now (Shop._id (shop d))) os);
     trendingScore := trendingScore d; weeklyOrders := weeklyOrders d |}.

(** [{ $ifNull: [{ $arrayElemAt: ['$weeklyStats.orderCount', 0] }, 0] }] *)
Definition orderCount0 (d : Doc) : Number :=
  match weeklyStats d with
  | [] => 0%Q
  | (orderCount, _) :: _ => orderCount
  end.

(** [$addFields] *)
Definition addFields (d : Doc) : Doc :=
  {| shop := shop d; distance := distance d; weeklyStats := weeklyStats d;
     trendingScore :=
       (Shop.average (Shop.rating (shop d)) * 2
        + orderCount0 d
        + (if Shop.isFeatured (shop d) then 5 else 0)
        + (if Qle_bool (distance d) 5000 then 3 else 0))%Q;
     weeklyOrders := orderCount0 d |}.

(** The [$or] of the inclusion [$match]. *)
Definition included (d : Doc) : bool :=
  Qle_bool 4.0 (Shop.average (Shop.rating (shop d)))
  || Qle_bool 5 (weeklyOrders d)
  || Shop.isFeatured (shop d).

(** [$sort: { trendingScore: -1, 'rating.average': -1 }]: [x] may come
    before [y]. *)
Definition before (x y : Doc) : Prop :=
  (Qlt_bool (trendingScore y) (trendingScore x)
   || (Qeq_bool (trendingScore x) (trendingScore y)
       && Qle_bool (Shop.average (Shop.rating (shop y)))
                   (Shop.average (Shop.rating (shop x))))) = true.

#[local] Instance before_dec (x y : Doc) : Decision (before x y) :=
  decide (_ = true).

(** The aggregation up to [$limit]. *)
Definition pipeline (dist : Shop.t -> Number) (now : Date) (limit : nat)
    (db : DB) : list Doc :=
  take limit
    (merge_sort before
       (List.filter included
          (List.map addFields
             (List.map (lookup now (orders db)) (geoNear dist (shops db)))))).

(** The number of a shop's own orders that are delivered and were
    created in the trailing seven days, in the words of the
    specification. *)
Definition own_weeklyOrders (now : Date) (os : list Order.t) (shopId : ObjectId) : nat :=
  length (List.filter
            (fun o => String.eqb (Order.shopId o) shopId
                      && bool_decide (Order.status o = Order.delivered)
                      && (now - week_ms <=? Order.createdAt o)%Z)
            os).


End Trending.

(** ** Sequences of cart mutations *)

Inductive Mutation :=
| AddItem (body : CartRouter.AddBody)
| UpdateItem (itemIndex : Z) (quantity : option Number)
| RemoveItem (itemIndex : Z)
| Clear.

Record Request := mkRequest {
  req_user : ObjectId;
  req_mutation : Mutation;
  req_now : Date
}.

Definition mutate (db : DB) (r : Request) : Response * DB :=
  match req_mutation r with
  | AddItem body => CartRouter.add db (req_user r) body (req_now r)
  | UpdateItem itemIndex quantity =>
      CartRouter.update db (req_user r) itemIndex quantity (req_now r)
  | RemoveItem itemIndex => CartRouter.remove db (req_user r) itemIndex (req_now r)
  | Clear => CartRouter.clear db (req_user r) (req_now r)
  end.

(** The requests served one after the other: each with its response and
    the store it leaves. *)
Fixpoint serve (db : DB) (rs : list Request) : list (Request * Response * DB) :=
  match rs with
  | [] => []
  | r :: rs' =>
      let '(resp, db') := mutate db r in
      (r, resp, db') :: serve db' rs'
  end.

(** The sum of the subtotals of the items of a cart. *)
Fixpoint sum_subtotals (its : list CartItem.t) : Number :=
  match its with
  | [] => 0%Q
  | it :: rest => (CartItem.subtotal it + sum_subtotals rest)%Q
  end.

(** The user's open cart, as GET / shows it, has a total that is the
    sum of the subtotals of its items. *)
Definition total_is_sum (db : DB) (user : ObjectId) : Prop :=
  match data (CartRouter.get db user) with
  | CartView its total _ => (total == sum_subtotals its)%Q
  | _ => False
  end.

(** The order lines copy the cart lines one for one. *)
Definition same_line (o : Order.Item) (c : CartItem.t) : Prop :=
  Order.foodId o = CartItem.food c
  /\ Order.quantity o = CartItem.quantity c
  /\ Order.price o = CartItem.price c
  /\ Order.subtotal o = CartItem.subtotal c.

(** ** Sample data *)

Import CartRouter.

Module Examples.
Definition burger : Food.t :=
  {| Food._id := "f1"; Food.name := "Burger"; Food.cooking_time := 10;
     Food.price := 100; Food.instock := true; Food.veg := false;
     Food.beverage := false; Food.cuisine := "American"; Food.order_num := 0;
     Food.image := "burger.png"; Food.menu_category := 1; Food.shopid := 7;
     Food.createdBy := None; Food.createdAt := 0; Food.updatedAt := None |}.

Definition soldOut : Food.t :=
  {| Food._id := "f2"; Food.name := "Soup"; Food.cooking_time := 5;
     Food.price := 60; Food.instock := false; Food.veg := true;
     Food.beverage := false; Food.cuisine := "Indian"; Food.order_num := 0;
     Food.image := "soup.png"; Food.menu_category := 2; Food.shopid := 7;
     Food.createdBy := None; Food.createdAt := 0; Food.updatedAt := None |}.

Definition shopA : Shop.t :=
  {| Shop._id := "s1"; Shop.name := "Alpha"; Shop.coordinates := Some (0, 0)%Q;
     Shop.rating := {| Shop.average := 3.5; Shop.count := 10 |};
     Shop.online := true; Shop.isActive := true; Shop.isVerified := true;
     Shop.isFeatured := false |}.

Definition line (quantity subtotal : Number) : CartItem.t :=
  {| CartItem.food := "f1"; CartItem.shop := "s1"; CartItem.quantity := quantity;
     CartItem.price := 100; CartItem.subtotal := subtotal |}.

Definition cartOf (its : list CartItem.t) (total : Number) : Cart.t :=
  {| Cart.user := "u1"; Cart.items := its; Cart.totalAmount := total;
     Cart.isCheckedOut := false; Cart.createdAt := 0; Cart.updatedAt := None |}.

Definition store (cs : list Cart.t) : DB :=
  {| foods := [burger; soldOut]; shops := [shopA]; carts := cs; orders := [] |}.

Definition address : Order.Address :=
  {| Order.street := "1 Main Road"; Order.city := "Pune"; Order.state := "MH";
     Order.pincode := "411001"; Order.landmark := None |}.

Definition pay (method : string) : CheckoutBody :=
  {| paymentMethod := method; deliveryAddress := Some address;
     phoneNumber := "9999999999" |}.

Definition noon : Date := 1700000000000.

(** A delivered order of a shop, for the sample data. *)
Definition delivered_order (shopId : ObjectId) (createdAt : Date) : Order.t :=
  {| Order.userId := "u9"; Order.shopId := shopId; Order.orderId := None;
     Order.items := []; Order.totalAmount := 100; Order.deliveryFee := 50;
     Order.taxes := 5; Order.grandTotal := 155; Order.deliveryTime := Some 45%Q;
     Order.status := Order.delivered; Order.paymentMethod := "cod";
     Order.paymentStatus := Order.payment_completed; Order.paymentId := None;
     Order.deliveryAddress := address; Order.phoneNumber := "9999999999";
     Order.estimatedDeliveryTime := None; Order.createdAt := createdAt |}.

(** The cart of the specification's example: one line, price 100,
    quantity 2. *)
Definition two_burgers : DB := store [cartOf [line 2 200] 200].
End Examples.
Import Examples.

(** ** The reports of the cart router *)

Module CartReports.

(** One entry of [itemsByShop]. *)
Record Group := mkGroup {
  shop : Shop.t;
  items : list CartItem.t;
  shopSubtotal : Number
}.

(** [acc[shopId].items.push(item); acc[shopId].shopSubtotal += item.subtotal] *)
Definition push_item (it : CartItem.t) (g : Group) : Group :=
  {| shop := shop g; items := items g ++ [it];
     shopSubtotal := (shopSubtotal g + CartItem.subtotal it)%Q |}.

(** The object [acc] as the list of its keys and values in insertion
    order: the keys are ObjectId strings, which are never integer keys,
    so this is also the order of [Object.values]. *)
Fixpoint push_at (shopId : string) (it : CartItem.t) (acc : list (string * Group))
  : list (string * Group) :=
  match acc with
  | [] => []
  | (k, g) :: rest =>
      if String.eqb k shopId then (k, push_item it g) :: rest
      else (k, g) :: push_at shopId it rest
  end.

(** One step of the [reduce]: create the group of the shop if [acc] has
    none, then add the item to it. *)
Definition group_step (acc : list (string * Group)) (it : CartItem.t) (s : Shop.t)
  : list (string * Group) :=
  let shopId := Shop._id s in
  let acc1 :=
    if existsb (fun kg => String.eqb (fst kg) shopId) acc then acc
    else acc ++ [(shopId, {| shop := s; items := []; shopSubtotal := 0%Q |})] in
  push_at shopId it acc1.

(** [cart.items.reduce(..., {})] on the populated cart; reading [_id]
    of a shop that [populate] left [null] throws. *)
Fixpoint itemsByShop (db : DB) (its : list CartItem.t) (acc : list (string * Group))
  : Exn + list (string * Group) :=
  match its with
  | [] => inr acc
  | it :: rest =>
      match Shop_findById (shops db) (CartItem.shop it) with
      | None => inl (TypeError "Cannot read properties of null (reading '_id')")
      | Some s => itemsByShop db rest (group_step acc it s)
      end
  end.

Record Summary := mkSummary {
  totalItems : nat;
  totalAmount : Number;
  groups : list Group;
  deliveryFee : Number;
  taxes : Number;
  grandTotal : Number
}.

Inductive Reply (A : Type) :=
| Json (a : A)
| Error (status : Z) (message : string).
Arguments Json {A} a.
Arguments Error {A} status message.

(** GET /summary *)
Definition summary (db : DB) (user : ObjectId) : Reply Summary :=
  match Cart_findOne (carts db) user with
  | None => Error 400 "Cart is empty"
  | Some (_, cart) =>
      if bool_decide (length (Cart.items cart) = 0%nat) then Error 400 "Cart is empty"
      else
        match itemsByShop db (Cart.items cart) [] with
        | inl e => Error 500 "Error generating cart summary"
        | inr acc =>
            Json {| totalItems := length (Cart.items cart);
                    totalAmount := Cart.totalAmount cart;
                    groups := List.map snd acc;
                    deliveryFee := 50%Q;
                    taxes := Math_round (Cart.totalAmount cart * 0.05)%Q;
                    grandTotal := (Cart.totalAmount cart + 50
                                   + Math_round (Cart.totalAmount cart * 0.05))%Q |}
        end
  end.

(** GET /count *)
Definition count (db : DB) (user : ObjectId) : nat :=
  match Cart_findOne (carts db) user with
  | Some (_, cart) => length (Cart.items cart)
  | None => 0%nat
  end.

End CartReports.

(** ** Sessions: any requests to the cart router, checkout included *)

Inductive Action :=
| Mutate (m : Mutation)
| Checkout (body : CartRouter.CheckoutBody) (random : N).

Record Call := mkCall {
  call_user : ObjectId;
  call_action : Action;
  call_now : Date
}.

Definition handle (db : DB) (c : Call) : Response * DB :=
  match call_action c with
  | Mutate m => mutate db (mkRequest (call_user c) m (call_now c))
  | Checkout body random => CartRouter.checkout db (call_user c) body (call_now c) random
  end.

(** The store after each call of a session. *)
Fixpoint run (db : DB) (cs : list Call) : list DB :=
  match cs with
  | [] => []
  | c :: cs' => snd (handle db c) :: run (snd (handle db c)) cs'
  end.

(** ** More of the Shop model *)

(** The virtual [isCurrentlyOpen]; [currentTime] is
    [now.toTimeString().slice(0, 5)]. Strings compare by code units. *)
Definition isCurrentlyOpen (openTime closeTime currentTime : string) : bool :=
  String.leb openTime currentTime && String.leb currentTime closeTime.

(** ** More of the shop router *)

Module ShopRouter.

(** [Math.max(20, Math.min(60, Math.round(km * 3) + 15))] *)
Definition estimatedDeliveryTime (km : Number) : Number :=
  Qmax 20 (Qmin 60 (Math_round (km * 3) + 15)).

(** The delivery charge by distance, as GET / and GET /:id compute it. *)
Definition distance_charge (distance deliveryCharge : Number) : Number :=
  if Qlt_bool 5 distance
  then (deliveryCharge + Math_round (distance - 5) * 2)%Q
  else deliveryCharge.




End ShopRouter.

(** ** The recommendations of the shop router *)

Module Recommendations.

(** [[...new Set(xs)]]: the distinct values in order of first
    appearance. *)
Definition Set_spread (xs : list string) : list string :=
  foldl (fun set x => if bool_decide (x ∈ set) then set else set ++ [x]) [] xs.

(** [[...new Set(xs)].slice(0, 5)] *)
Definition top5 (xs : list string) : list string := take 5 (Set_spread xs).

(** The [reduce] over the delivered orders of the user: [populated]
    lists, for each order, the [cuisine] and [menuCategory] of its shop,
    or [None] where [populate] left [null]. *)
Definition preferences (populated : list (option (list string * list string)))
  : list string * list string :=
  foldl (fun acc shopId =>
           match shopId with
           | Some (cuisine, menuCategory) => (acc.1 ++ cuisine, acc.2 ++ menuCategory)
           | None => acc
           end)
        ([], []) populated.

(** [{ $size: { $setIntersection: [xs, ys] } }] *)
Definition setIntersection_size (xs ys : list string) : nat :=
  length (Set_spread (List.filter (fun x => bool_decide (x ∈ ys)) xs)).

(** The [matchScore] of [$addFields]; a whole number. *)
Definition matchScore (cuisine menuCategory : list string) (average : Number)
    (isFeatured : bool) (topCuisines topCategories : list string) : nat :=
  (setIntersection_size cuisine topCuisines
   + setIntersection_size menuCategory topCategories
   + (if Qle_bool 4 average then 2 else 0)
   + (if isFeatured then 1 else 0))%nat.

(** [recommendationReason] *)
Definition recommendationReason (matchScore : nat) (average : Number) : string :=
  if (3 <? matchScore)%nat then "Based on your preferences"
  else if Qle_bool 4 average then "Highly rated"
  else "Popular nearby".

End Recommendations.

(** What a handler that ends in [cart.save()] may have done to the
    collection of carts. *)
Definition only_open_cart_written (u : ObjectId) (cs cs' : list Cart.t) : Prop :=
  (length cs <= length cs')%nat
  /\ forall j c, cs !! j = Some c -> Cart_findOne cs u <> Some (j, c) -> cs' !! j = Some c.

(** What the accumulator of the grouping holds at every step. *)
Definition grouped (acc : list (string * CartReports.Group)) : Prop :=
  NoDup acc.*1
  /\ Forall (fun kg => kg.1 = Shop._id (CartReports.shop kg.2)
                       /\ (CartReports.shopSubtotal kg.2 == sum_subtotals (CartReports.items kg.2))%Q
                       /\ Forall (fun it => CartItem.shop it = kg.1) (CartReports.items kg.2))
            acc.

(** ** More sample data *)

Module Samples.

Definition shopB : Shop.t :=
  {| Shop._id := "s2"; Shop.name := "Beta"; Shop.coordinates := Some (1, 1)%Q;
     Shop.rating := {| Shop.average := 4.6; Shop.count := 3 |};
     Shop.online := true; Shop.isActive := true; Shop.isVerified := true;
     Shop.isFeatured := true |}.

Definition lineOf (food shop : ObjectId) (quantity price : Number) : CartItem.t :=
  {| CartItem.food := food; CartItem.shop := shop; CartItem.quantity := quantity;
     CartItem.price := price; CartItem.subtotal := (price * quantity)%Q |}.

(** A cart with lines of two shops. *)
Definition mixed_cart : Cart.t :=
  cartOf [lineOf "f1" "s1" 2 100; lineOf "f2" "s2" 1 60; lineOf "f1" "s1" 1 100] 360.

Definition two_shops : DB :=
  {| foods := [burger; soldOut]; shops := [shopA; shopB]; carts := [mixed_cart];
     orders := [] |}.

(** A cart whose line refers to a food that is not in the catalogue. *)
Definition orphan : DB := store [cartOf [lineOf "f9" "s1" 1 40] 40].

(** A checked-out cart of the user, stored before the open one. *)
Definition archived : Cart.t := Cart.set_isCheckedOut true (cartOf [line 1 100] 100).

Definition with_archive : DB := store [archived; cartOf [line 2 200] 200].

Definition call (a : Action) : Call :=
  {| call_user := "u1"; call_action := a; call_now := noon |}.

End Samples.
Import Samples.

(** * Properties *)

Section CartTotals.

Lemma reduce_from (its : list CartItem.t) (a : Q) :
  (foldl (fun sum item => sum + CartItem.subtotal item) a its == a + sum_subtotals its)%Q.
Proof.
  revert a. induction its as [|it rest IH]; intros a; cbn [foldl sum_subtotals].
  - ring.
  - rewrite IH. ring.
Qed.

Lemma reduce_subtotals_sum (its : list CartItem.t) :
  (Cart.reduce_subtotals its == sum_subtotals its)%Q.
Proof. unfold Cart.reduce_subtotals. rewrite reduce_from. ring. Qed.

Lemma pre_save_total (now : Date) (c : Cart.t) :
  (Cart.totalAmount (Cart.pre_save now c) == sum_subtotals (Cart.items (Cart.pre_save now c)))%Q.
Proof. apply reduce_subtotals_sum. Qed.

(** Saving in place keeps the saved document the user's first open cart. *)
Lemma Cart_save_in_place now cs u i c c1 touched c' cs' :
  Cart_findOne cs u = Some (i, c) ->
  Cart.user c1 = u -> Cart.isCheckedOut c1 = false ->
  Cart_save now cs (Some i) c1 touched = inr (c', cs') ->
  c' = Cart.pre_save now c1 /\ cs' = <[i := c']> cs /\ Cart_findOne cs' u = Some (i, c').
Proof.
  unfold Cart_save, Cart_findOne. intros Hfind Hu Hopen Hsave.
  destruct (forallb Cart.validate_item touched); [|discriminate].
  injection Hsave as <- <-.
  split; [reflexivity|]. split; [reflexivity|].
  apply list_find_Some in Hfind as (Hi & _ & Hmin).
  apply list_find_Some. split; [|split].
  - apply list_lookup_insert_eq. by eapply lookup_lt_Some.
  - done.
  - intros j y Hj Hlt. rewrite list_lookup_insert_ne in Hj by lia. eauto.
Qed.

Lemma Cart_save_new now cs u c1 touched c' cs' :
  Cart_findOne cs u = None ->
  Cart.user c1 = u -> Cart.isCheckedOut c1 = false ->
  Cart_save now cs None c1 touched = inr (c', cs') ->
  c' = Cart.pre_save now c1 /\ cs' = cs ++ [c'] /\ Cart_findOne cs' u = Some (length cs, c').
Proof.
  unfold Cart_save, Cart_findOne. intros Hfind Hu Hopen Hsave.
  destruct (forallb Cart.validate_item touched); [|discriminate].
  injection Hsave as <- <-.
  split; [reflexivity|]. split; [reflexivity|].
  rewrite list_find_app_r by done. cbn.
  rewrite decide_True by done. cbn. reflexivity.
Qed.

Lemma Cart_findOne_open cs u i c :
  Cart_findOne cs u = Some (i, c) -> Cart.user c = u /\ Cart.isCheckedOut c = false.
Proof. unfold Cart_findOne. intros (_ & H & _)%list_find_Some. exact H. Qed.

Lemma total_is_sum_found db u i c :
  Cart_findOne (carts db) u = Some (i, c) ->
  (Cart.totalAmount c == sum_subtotals (Cart.items c))%Q ->
  total_is_sum db u.
Proof. unfold total_is_sum, CartRouter.get. intros -> H. exact H. Qed.

Lemma total_is_sum_absent db u :
  Cart_findOne (carts db) u = None -> total_is_sum db u.
Proof. unfold total_is_sum, CartRouter.get. intros ->. cbn. reflexivity. Qed.

(** A successful save of the user's open cart, in place or as a new
    document, leaves a cart whose total is the sum of its subtotals. *)
Lemma saved_total_is_sum now db u slot c1 touched c' cs' :
  match slot with
  | Some i => exists c, Cart_findOne (carts db) u = Some (i, c)
  | None => Cart_findOne (carts db) u = None
  end ->
  Cart.user c1 = u -> Cart.isCheckedOut c1 = false ->
  Cart_save now (carts db) slot c1 touched = inr (c', cs') ->
  total_is_sum (set_carts cs' db) u.
Proof.
  intros Hslot Hu Hopen Hsave. destruct slot as [i|].
  - destruct Hslot as [c Hfind].
    destruct (Cart_save_in_place _ _ _ _ _ _ _ _ _ Hfind Hu Hopen Hsave) as (-> & _ & Hf).
    eapply total_is_sum_found; [exact Hf|apply pre_save_total].
  - destruct (Cart_save_new _ _ _ _ _ _ _ Hslot Hu Hopen Hsave) as (-> & _ & Hf).
    eapply total_is_sum_found; [exact Hf|apply pre_save_total].
Qed.

(** The closing step of every handler that saved the open cart it found. *)
Ltac saved_open_cart Hfind Hsave :=
  destruct (Cart_findOne_open _ _ _ _ Hfind);
  eapply saved_total_is_sum; [| | |exact Hsave]; cbn; eauto.

Lemma update_total db u itemIndex quantity now resp db' :
  CartRouter.update db u itemIndex quantity now = (resp, db') ->
  success resp = true -> total_is_sum db' u.
Proof.
  unfold CartRouter.update. intros H Hok.
  destruct (CartRouter.bad_quantity quantity); [by simplify_eq|].
  destruct (Cart_findOne (carts db) u) as [[i cart]|] eqn:Hfind; [|by simplify_eq].
  destruct (_ <=? _)%Z; [by simplify_eq|].
  destruct (CartRouter.js_index _ _) as [it|]; [|by simplify_eq].
  destruct (Cart_save _ _ _ _ _) as [e|[c' cs']] eqn:Hsave; simplify_eq.
  saved_open_cart Hfind Hsave.
Qed.

Lemma remove_total db u itemIndex now resp db' :
  CartRouter.remove db u itemIndex now = (resp, db') ->
  success resp = true -> total_is_sum db' u.
Proof.
  unfold CartRouter.remove. intros H Hok.
  destruct (Cart_findOne (carts db) u) as [[i cart]|] eqn:Hfind; [|by simplify_eq].
  destruct (_ <=? _)%Z; [by simplify_eq|].
  destruct (Cart_save _ _ _ _ _) as [e|[c' cs']] eqn:Hsave; simplify_eq.
  saved_open_cart Hfind Hsave.
Qed.

Lemma clear_total db u now resp db' :
  CartRouter.clear db u now = (resp, db') ->
  success resp = true -> total_is_sum db' u.
Proof.
  unfold CartRouter.clear. intros H Hok.
  destruct (Cart_findOne (carts db) u) as [[i cart]|] eqn:Hfind.
  - destruct (Cart_save _ _ _ _ _) as [e|[c' cs']] eqn:Hsave; simplify_eq.
    saved_open_cart Hfind Hsave.
  - simplify_eq. by apply total_is_sum_absent.
Qed.

Lemma add_commit_total db u foodId shopId quantity price now resp db' :
  CartRouter.add_commit db u foodId shopId quantity price now = (resp, db') ->
  success resp = true -> total_is_sum db' u.
Proof.
  unfold CartRouter.add_commit. intros H Hok.
  destruct (Cart_findOne (carts db) u) as [[i cart]|] eqn:Hfind;
    destruct (CartRouter.add_line _ _ _ _ _) as [its written];
    destruct (Cart_save _ _ _ _ _) as [e|[c' cs']] eqn:Hsave; simplify_eq.
  - saved_open_cart Hfind Hsave.
  - eapply saved_total_is_sum; [| | |exact Hsave]; cbn; eauto.
Qed.

Lemma add_total db u body now resp db' :
  CartRouter.add db u body now = (resp, db') ->
  success resp = true -> total_is_sum db' u.
Proof.
  unfold CartRouter.add. intros H Hok.
  destruct (_ || _); [by simplify_eq|].
  destruct (Food_findById _ _) as [food|]; [|by simplify_eq].
  destruct (toString _) as [e|s]; [by simplify_eq|].
  destruct (negb _); [by simplify_eq|].
  destruct (js_not _); [by simplify_eq|].
  eapply add_commit_total; eauto.
Qed.

Lemma mutate_total db r resp db' :
  mutate db r = (resp, db') -> success resp = true -> total_is_sum db' (req_user r).
Proof.
  unfold mutate. destruct (req_mutation r);
    eauto using add_total, update_total, remove_total, clear_total.
Qed.

(** C1. From any store and for any sequence of cart requests (add,
    update, remove, clear, by any users), after each request that
    succeeds the requester's open cart has a [totalAmount] equal to the
    sum of the subtotals of its items. *)
Theorem cart_total_after_each_mutation (db : DB) (rs : list Request) :
  Forall (fun '(r, resp, db') => success resp = true -> total_is_sum db' (req_user r))
         (serve db rs).
Proof.
  revert db. induction rs as [|r rs IH]; intros db; cbn [serve].
  - constructor.
  - destruct (mutate db r) as [resp db'] eqn:Hstep. constructor.
    + intros Hok. eapply mutate_total; eauto.
    + apply IH.
Qed.

(** A run of the cart engine in which every request succeeds. *)
Example serve_update_remove_clear :
  let rs := [ mkRequest "u1" (UpdateItem 0 (Some 3%Q)) noon;
              mkRequest "u1" (RemoveItem (-1)) noon;
              mkRequest "u1" Clear noon ] in
  List.map (fun '(_, resp, db') =>
              (success resp, Cart.totalAmount <$> (snd <$> Cart_findOne (carts db') "u1")))
           (serve (store [cartOf [line 1 100; line 2 200] 0]) rs)
  = [(true, Some 500%Q); (true, Some 300%Q); (true, Some 0%Q)].
Proof. vm_compute. reflexivity. Qed.

End CartTotals.

Section AddItem.

(** An unknown food is answered 404. *)
Lemma add_unknown_food db u body now :
  falsy (foodId body) = false -> falsy (shopId body) = false ->
  Food_findById (foods db) (foodId body) = None ->
  add db u body now = (fail 404 "Food item not found", db).
Proof. unfold add. intros -> -> ->. reflexivity. Qed.

(** Every call for a food of the catalogue ends in the [catch] block. *)
Lemma add_existing_food_throws db u body now food :
  falsy (foodId body) = false -> falsy (shopId body) = false ->
  Food_findById (foods db) (foodId body) = Some food ->
  add db u body now =
  (caught "Error adding item to cart"
     (TypeError "Cannot read properties of undefined (reading 'toString')"), db).
Proof. unfold add. intros -> -> ->. reflexivity. Qed.

(** No call succeeds, and none changes the store. *)
Lemma add_never_succeeds db u body now :
  success (fst (add db u body now)) = false /\ snd (add db u body now) = db.
Proof.
  unfold add. destruct (_ || _); [done|].
  destruct (Food_findById _ _); done.
Qed.

(** C6. The food "f1" exists and is asked for under another shop; the
    food "f2" exists and is out of stock. The specification has the 400
    responses Conflict and Unavailable; the handler answers 500 to
    both, from the [catch] block, and leaves the store unchanged. *)
Theorem add_wrong_shop_or_out_of_stock :
  let db := store [cartOf [line 1 100] 100] in
  Food_findById (foods db) "f1" = Some burger
  /\ Food_findById (foods db) "f2" = Some soldOut
  /\ Food.instock soldOut = false
  /\ add db "u1" {| foodId := "f1"; shopId := "s2"; quantity := Some 1%Q |} noon
     = ({| status := 500; success := false; message := "Error adding item to cart";
           data := ErrorData "Cannot read properties of undefined (reading 'toString')" |},
        db)
  /\ add db "u1" {| foodId := "f2"; shopId := "s1"; quantity := Some 1%Q |} noon
     = ({| status := 500; success := false; message := "Error adding item to cart";
           data := ErrorData "Cannot read properties of undefined (reading 'toString')" |},
        db).
Proof. cbv zeta. split_and!; reflexivity. Qed.

(** The merge of lines 96-116, taken alone. *)
Lemma add_line_merges foodId shopId quantity price its i it :
  list_find (fun it => CartItem.food it = foodId /\ CartItem.shop it = shopId) its
    = Some (i, it) ->
  fst (add_line foodId shopId quantity price its)
    = <[i := merge_line quantity price it]> its
  /\ length (fst (add_line foodId shopId quantity price its)) = length its
  /\ CartItem.quantity (merge_line quantity price it) = (CartItem.quantity it + quantity)%Q
  /\ CartItem.subtotal (merge_line quantity price it)
     = ((CartItem.quantity it + quantity) * price)%Q.
Proof.
  intros H. unfold add_line. rewrite H. cbn. split_and!; try reflexivity.
  apply length_insert.
Qed.


End AddItem.

Section Checkout.

(** What a successful checkout did. *)
Lemma checkout_success db u body now random resp db' :
  checkout db u body now random = (resp, db') ->
  success resp = true ->
  exists address i cart order,
    deliveryAddress body = Some address
    /\ falsy (paymentMethod body) = false /\ falsy (phoneNumber body) = false
    /\ Cart_findOne (carts db) u = Some (i, cart)
    /\ Cart.items cart <> []
    /\ new_order db u cart (paymentMethod body) address (phoneNumber body) now = inr order
    /\ Order.validate order = true
    /\ resp = ok "Order placed successfully!"
                (OrderData (Order.pre_save now random order)
                           (Order.paymentStatus (Order.pre_save now random order))
                           (Order.estimatedDeliveryTime (Order.pre_save now random order)))
    /\ db' = {| foods := foods db; shops := shops db;
                carts := <[i := Cart.pre_save now (Cart.set_isCheckedOut true cart)]> (carts db);
                orders := orders db ++ [Order.pre_save now random order] |}.
Proof.
  unfold checkout. intros H Hok.
  destruct (deliveryAddress body) as [address|]; [|by simplify_eq/=].
  destruct (falsy (paymentMethod body)) eqn:Hpm; [by simplify_eq/=|].
  destruct (falsy (phoneNumber body)) eqn:Hph; [by simplify_eq/=|].
  cbn [orb] in H.
  destruct (Cart_findOne (carts db) u) as [[i cart]|] eqn:Hfind; [|by simplify_eq/=].
  case_bool_decide as Hlen; [by simplify_eq/=|].
  destruct (new_order _ _ _ _ _ _ _) as [e|order] eqn:Hnew; [by simplify_eq/=|].
  unfold Order.save in H.
  destruct (Order.validate order) eqn:Hval; [|by simplify_eq/=].
  case_bool_decide; [by simplify_eq/=|].
  cbn in H. simplify_eq.
  exists address, i, cart, order. split_and!; try done.
  intros Hnil. apply Hlen. by rewrite Hnil.
Qed.


Lemma Food_findById_id fs id f : Food_findById fs id = Some f -> Food._id f = id.
Proof.
  unfold Food_findById. intros ([j g] & Hfind & ->)%fmap_Some.
  by apply list_find_Some in Hfind as (_ & ? & _).
Qed.

Lemma Shop_findById_id ss id s : Shop_findById ss id = Some s -> Shop._id s = id.
Proof.
  unfold Shop_findById. intros ([j g] & Hfind & ->)%fmap_Some.
  by apply list_find_Some in Hfind as (_ & ? & _).
Qed.

Lemma order_items_same db its os :
  order_items db its = inr os -> Forall2 same_line os its.
Proof.
  revert os. induction its as [|it rest IH]; intros os H; cbn in H.
  - simplify_eq. constructor.
  - destruct (Food_findById _ _) as [f|] eqn:Hf; [|done].
    destruct (order_items db rest) as [e|os']; [done|]. simplify_eq.
    constructor; [|by apply IH].
    repeat split. cbn. by eapply Food_findById_id.
Qed.


Lemma new_order_fields db u cart pm address phone now o :
  new_order db u cart pm address phone now = inr o ->
  Order.userId o = u
  /\ first_shop_id db (Cart.items cart) = inr (Order.shopId o)
  /\ order_items db (Cart.items cart) = inr (Order.items o)
  /\ Order.orderId o = None
  /\ Order.totalAmount o = Cart.totalAmount cart
  /\ Order.deliveryFee o = 50%Q
  /\ Order.taxes o = Math_round (Cart.totalAmount cart * 0.05)%Q
  /\ Order.grandTotal o = (Cart.totalAmount cart + 50 + Order.taxes o)%Q
  /\ Order.status o = Order.confirmed
  /\ Order.paymentMethod o = pm
  /\ (Order.paymentStatus o, Order.paymentId o) = simulate_payment pm now
  /\ Order.estimatedDeliveryTime o = Some (now + 45 * 60 * 1000).
Proof.
  unfold new_order. destruct (simulate_payment pm now) as [ps pid].
  destruct (first_shop_id _ _) as [e|shop]; [done|].
  destruct (order_items _ _) as [e|its]; [done|].
  intros [= <-]. cbn. split_and!; reflexivity.
Qed.

(** The pre-save hook of the order writes [orderId] only. *)
Lemma Order_pre_save_fields now random o :
  let o' := Order.pre_save now random o in
  Order.userId o' = Order.userId o /\ Order.shopId o' = Order.shopId o
  /\ Order.items o' = Order.items o
  /\ Order.totalAmount o' = Order.totalAmount o
  /\ Order.deliveryFee o' = Order.deliveryFee o
  /\ Order.taxes o' = Order.taxes o
  /\ Order.grandTotal o' = Order.grandTotal o
  /\ Order.status o' = Order.status o
  /\ Order.paymentMethod o' = Order.paymentMethod o
  /\ Order.paymentStatus o' = Order.paymentStatus o
  /\ Order.paymentId o' = Order.paymentId o
  /\ Order.estimatedDeliveryTime o' = Order.estimatedDeliveryTime o.
Proof. unfold Order.pre_save. destruct (Order.orderId o); cbn; split_and!; reflexivity. Qed.





(** C5. In the order of a successful checkout: 'cod' gives payment
    status [pending] and the reference COD_<now>; 'card' and 'upi' give
    [completed] (and the reference PAY_<now>); 'wallet' takes neither
    branch, so the status stays at its initial [pending] and no
    reference is set. *)
Theorem checkout_payment_simulation db u body now random resp db' :
  checkout db u body now random = (resp, db') ->
  success resp = true ->
  exists o,
    orders db' = orders db ++ [o]
    /\ data resp = OrderData o (Order.paymentStatus o) (Order.estimatedDeliveryTime o)
    /\ Order.paymentMethod o = paymentMethod body
    /\ (paymentMethod body = "cod" ->
        Order.paymentStatus o = Order.payment_pending
        /\ Order.paymentId o = Some ("COD_" +:+ pretty now))
    /\ (paymentMethod body = "card" \/ paymentMethod body = "upi" ->
        Order.paymentStatus o = Order.payment_completed
        /\ Order.paymentId o = Some ("PAY_" +:+ pretty now))
    /\ (paymentMethod body = "wallet" ->
        Order.paymentStatus o = Order.payment_pending
        /\ Order.paymentId o = None).
Proof.
  intros H Hok.
  destruct (checkout_success _ _ _ _ _ _ _ H Hok)
    as (address & i & cart & order & _ & _ & _ & _ & _ & Hnew & _ & -> & ->).
  destruct (new_order_fields _ _ _ _ _ _ _ _ Hnew)
    as (_ & _ & _ & _ & _ & _ & _ & _ & _ & Hpm & Hsim & _).
  destruct (Order_pre_save_fields now random order)
    as (_ & _ & _ & _ & _ & _ & _ & _ & Em & Eps & Eid & _).
  exists (Order.pre_save now random order).
  rewrite Em, Eps, Eid, Hpm. split_and!; try done.
  - intros E. rewrite E in Hsim. by injection Hsim.
  - intros [E|E]; rewrite E in Hsim; by injection Hsim.
  - intros E. rewrite E in Hsim. by injection Hsim.
Qed.

(** A checkout paid from the wallet, run. *)
Lemma checkout_payment_simulation_witness :
  exists o,
    orders (snd (checkout two_burgers "u1" (pay "wallet") noon 7)) = [o]
    /\ Order.paymentStatus o = Order.payment_pending
    /\ Order.paymentId o = None.
Proof.
  assert (success (fst (checkout two_burgers "u1" (pay "wallet") noon 7)) = true) as Hok
    by (vm_compute; reflexivity).
  destruct (checkout_payment_simulation two_burgers "u1" (pay "wallet") noon 7 _ _
              (surjective_pairing _) Hok)
    as (o & Ho & _ & _ & _ & _ & Hwallet).
  exists o. split; [exact Ho|]. apply Hwallet. reflexivity.
Defined.




(** C10, amended. When the stored total of the user's open cart is the
    sum of its subtotals, a successful checkout leaves the catalogue
    alone, appends the order and rewrites that one cart only: same user,
    same items, same [totalAmount], same [createdAt], with
    [isCheckedOut] set and [updatedAt] stamped; the order lines copy the
    cart lines and the order total is the cart total. *)
Theorem checkout_frame db u body now random resp db' :
  total_is_sum db u ->
  checkout db u body now random = (resp, db') ->
  success resp = true ->
  exists i cart cart' o,
    Cart_findOne (carts db) u = Some (i, cart)
    /\ foods db' = foods db /\ shops db' = shops db
    /\ orders db' = orders db ++ [o]
    /\ carts db' = <[i := cart']> (carts db)
    /\ Cart.user cart' = Cart.user cart
    /\ Cart.items cart' = Cart.items cart
    /\ (Cart.totalAmount cart' == Cart.totalAmount cart)%Q
    /\ Cart.createdAt cart' = Cart.createdAt cart
    /\ Cart.isCheckedOut cart' = true
    /\ Cart.updatedAt cart' = Some now
    /\ Forall2 same_line (Order.items o) (Cart.items cart')
    /\ (Order.totalAmount o == Cart.totalAmount cart')%Q.
Proof.
  intros Hinv H Hok.
  destruct (checkout_success _ _ _ _ _ _ _ H Hok)
    as (address & i & cart & order & _ & _ & _ & Hfind & _ & Hnew & _ & -> & ->).
  destruct (new_order_fields _ _ _ _ _ _ _ _ Hnew)
    as (_ & _ & Hits & _ & Htot & _).
  destruct (Order_pre_save_fields now random order)
    as (_ & _ & Ei & Et & _).
  unfold total_is_sum, get in Hinv. rewrite Hfind in Hinv. cbn in Hinv.
  assert (Cart.reduce_subtotals (Cart.items cart) == Cart.totalAmount cart)%Q as Hsame.
  { rewrite Hinv. apply reduce_subtotals_sum. }
  exists i, cart, (Cart.pre_save now (Cart.set_isCheckedOut true cart)),
    (Order.pre_save now random order).
  rewrite Ei, Et, Htot. cbn. split_and!; try done.
  by apply order_items_same with (db := db).
Qed.

(** The cart of the example, before and after. *)
Lemma checkout_frame_witness :
  exists cart',
    carts (snd (checkout two_burgers "u1" (pay "cod") noon 7)) = [cart']
    /\ Cart.items cart' = [line 2 200]
    /\ (Cart.totalAmount cart' == 200)%Q
    /\ Cart.isCheckedOut cart' = true.
Proof.
  assert (success (fst (checkout two_burgers "u1" (pay "cod") noon 7)) = true) as Hok
    by (vm_compute; reflexivity).
  assert (total_is_sum two_burgers "u1") as Hinv by reflexivity.
  destruct (checkout_frame two_burgers "u1" (pay "cod") noon 7 _ _ Hinv
              (surjective_pairing _) Hok)
    as (i & cart & cart' & o & Hfind & _ & _ & _ & Hcarts & _ & Hits & Htot & _ & Hflag & _).
  injection Hfind as <- <-.
  exists cart'. split_and!; assumption.
Defined.

(** C10, as stated, fails: a stored cart whose [totalAmount] (150) is
    not the sum of its subtotals (200) comes out of a successful
    checkout with a different [totalAmount]; the order keeps the 150
    that was read before the save. *)
Lemma checkout_recomputes_total :
  let stale := cartOf [line 2 200] 150 in
  let db := store [stale] in
  exists cart' o,
    success (fst (checkout db "u1" (pay "cod") noon 7)) = true
    /\ carts (snd (checkout db "u1" (pay "cod") noon 7)) = [cart']
    /\ orders (snd (checkout db "u1" (pay "cod") noon 7)) = [o]
    /\ ~ (Cart.totalAmount cart' == Cart.totalAmount stale)%Q
    /\ (Cart.totalAmount cart' == 200)%Q
    /\ (Order.totalAmount o == 150)%Q.
Proof.
  cbv zeta. do 2 eexists.
  split_and!; [vm_compute; reflexivity|vm_compute; reflexivity|vm_compute; reflexivity| | |].
  - cbn. intros H. discriminate H.
  - reflexivity.
  - reflexivity.
Qed.

End Checkout.

Section Rating.







End Rating.

Section TrendingFacts.
Import Trending.

(** The sub-pipeline of [$lookup] gives every shop the same statistics. *)
Lemma lookup_match_any_shop now s1 s2 o : lookup_match now s1 o = lookup_match now s2 o.
Proof. reflexivity. Qed.

Lemma lookup_same_weeklyStats now os d1 d2 :
  weeklyStats (lookup now os d1) = weeklyStats (lookup now os d2).
Proof. reflexivity. Qed.




#[local] Instance before_total : Total before.
Proof.
  intros x y. unfold before, Qlt_bool.
  destruct (Qle_bool (trendingScore x) (trendingScore y)) eqn:Hxy; cbn; [|by left].
  destruct (Qle_bool (trendingScore y) (trendingScore x)) eqn:Hyx; cbn; [|by right].
  apply Qle_bool_iff in Hxy, Hyx.
  assert (trendingScore x == trendingScore y)%Q as E by (by apply Qle_antisym).
  rewrite (proj2 (Qeq_bool_iff _ _) E).
  rewrite (proj2 (Qeq_bool_iff _ _) (Qeq_sym _ _ E)). cbn.
  destruct (Qle_bool (Shop.average (Shop.rating (shop y)))
                     (Shop.average (Shop.rating (shop x)))) eqn:Ha; [by left|right].
  apply Qle_bool_iff. apply Qlt_le_weak, Qnot_le_lt.
  intros Hle. apply Qle_bool_iff in Hle. congruence.
Qed.


(** C8. Shop "s1" has rating 3.5, is not featured and has two
    delivered orders of its own in the trailing week; four more belong
    to shop "s2". The specification excludes "s1" (2 < 5); the pipeline
    counts all six for it, includes it, and scores it 2 * 3.5 + 6 + 3. *)
Theorem trending_counts_all_shops_orders :
  let yesterday := noon - 24 * 60 * 60 * 1000 in
  let db := {| foods := []; shops := [shopA]; carts := [];
               orders := [delivered_order "s1" yesterday; delivered_order "s1" yesterday;
                          delivered_order "s2" yesterday; delivered_order "s2" yesterday;
                          delivered_order "s2" yesterday; delivered_order "s2" yesterday] |} in
  let dist := fun _ : Shop.t => 1000%Q in
  (Shop.average (Shop.rating shopA) == 3.5)%Q
  /\ Shop.isFeatured shopA = false
  /\ own_weeklyOrders noon (orders db) (Shop._id shopA) = 2%nat
  /\ exists d, pipeline dist noon 10 db = [d]
       /\ shop d = shopA
       /\ (weeklyOrders d == 6)%Q
       /\ (trendingScore d == 2 * 3.5 + 6 + 3)%Q.
Proof.
  cbv zeta. split_and!; [reflexivity|reflexivity|vm_compute; reflexivity|].
  eexists. split_and!; [vm_compute; reflexivity|reflexivity|reflexivity|reflexivity].
Qed.

End TrendingFacts.

(** * Further properties *)

Section CartFrame.

Lemma Cart_save_inv now cs slot c touched c' cs' :
  Cart_save now cs slot c touched = inr (c', cs') ->
  c' = Cart.pre_save now c
  /\ cs' = match slot with Some i => <[i := c']> cs | None => cs ++ [c'] end.
Proof.
  unfold Cart_save. destruct (forallb _ _); [|done]. by intros [= <- <-].
Qed.

Lemma only_open_cart_written_refl u cs : only_open_cart_written u cs cs.
Proof. split; [lia|auto]. Qed.

Lemma written_in_place u cs i c c' :
  Cart_findOne cs u = Some (i, c) -> only_open_cart_written u cs (<[i := c']> cs).
Proof.
  intros Hfind. split; [by rewrite length_insert|].
  intros j d Hj Hne. destruct (decide (j = i)) as [->|Hji].
  - pose proof Hfind as (Hi & _)%list_find_Some.
    rewrite Hi in Hj. injection Hj as <-. by destruct Hne.
  - by rewrite list_lookup_insert_ne.
Qed.

Lemma written_appended u cs c' : only_open_cart_written u cs (cs ++ [c']).
Proof.
  split; [rewrite length_app; lia|].
  intros j d Hj _. by apply lookup_app_l_Some.
Qed.

(** Closes the branches in which the handler returned before saving. *)
Ltac untouched := cbn; auto using only_open_cart_written_refl.

Lemma update_frame db u k q now :
  let db' := snd (update db u k q now) in
  foods db' = foods db /\ shops db' = shops db /\ orders db' = orders db
  /\ only_open_cart_written u (carts db) (carts db').
Proof.
  unfold update.
  destruct (bad_quantity q); [untouched|].
  destruct (Cart_findOne (carts db) u) as [[i cart]|] eqn:Hfind;
    [|untouched].
  destruct (_ <=? _)%Z; [untouched|].
  destruct (js_index _ _); [|untouched].
  destruct (Cart_save _ _ _ _ _) as [e|[c' cs']] eqn:Hsave;
    [untouched|].
  apply Cart_save_inv in Hsave as [-> ->]. cbn. eauto using written_in_place.
Qed.

Lemma remove_frame db u k now :
  let db' := snd (remove db u k now) in
  foods db' = foods db /\ shops db' = shops db /\ orders db' = orders db
  /\ only_open_cart_written u (carts db) (carts db').
Proof.
  unfold remove.
  destruct (Cart_findOne (carts db) u) as [[i cart]|] eqn:Hfind;
    [|untouched].
  destruct (_ <=? _)%Z; [untouched|].
  destruct (Cart_save _ _ _ _ _) as [e|[c' cs']] eqn:Hsave;
    [untouched|].
  apply Cart_save_inv in Hsave as [-> ->]. cbn. eauto using written_in_place.
Qed.

Lemma clear_frame db u now :
  let db' := snd (clear db u now) in
  foods db' = foods db /\ shops db' = shops db /\ orders db' = orders db
  /\ only_open_cart_written u (carts db) (carts db').
Proof.
  unfold clear.
  destruct (Cart_findOne (carts db) u) as [[i cart]|] eqn:Hfind;
    [|untouched].
  destruct (Cart_save _ _ _ _ _) as [e|[c' cs']] eqn:Hsave;
    [untouched|].
  apply Cart_save_inv in Hsave as [-> ->]. cbn. eauto using written_in_place.
Qed.

Lemma add_commit_frame db u f s q p now :
  let db' := snd (add_commit db u f s q p now) in
  foods db' = foods db /\ shops db' = shops db /\ orders db' = orders db
  /\ only_open_cart_written u (carts db) (carts db').
Proof.
  unfold add_commit.
  destruct (Cart_findOne (carts db) u) as [[i cart]|] eqn:Hfind;
    destruct (add_line _ _ _ _ _) as [its written];
    (destruct (Cart_save _ _ _ _ _) as [e|[c' cs']] eqn:Hsave;
     [untouched|]);
    apply Cart_save_inv in Hsave as [-> ->]; cbn;
    eauto using written_in_place, written_appended.
Qed.

Lemma add_frame db u body now :
  let db' := snd (add db u body now) in
  foods db' = foods db /\ shops db' = shops db /\ orders db' = orders db
  /\ only_open_cart_written u (carts db) (carts db').
Proof.
  unfold add.
  destruct (_ || _); [untouched|].
  destruct (Food_findById _ _); [|untouched].
  destruct (toString _); [untouched|].
  destruct (negb _); [untouched|].
  destruct (js_not _); [untouched|].
  apply add_commit_frame.
Qed.

Lemma mutate_frame db r :
  let db' := snd (mutate db r) in
  foods db' = foods db /\ shops db' = shops db /\ orders db' = orders db
  /\ only_open_cart_written (req_user r) (carts db) (carts db').
Proof.
  unfold mutate. destruct (req_mutation r);
    auto using add_frame, update_frame, remove_frame, clear_frame.
Qed.

Lemma checkout_written db u body now random :
  let db' := snd (checkout db u body now random) in
  foods db' = foods db /\ shops db' = shops db
  /\ orders db `prefix_of` orders db'
  /\ only_open_cart_written u (carts db) (carts db').
Proof.
  unfold checkout.
  destruct (deliveryAddress body); [|untouched].
  destruct (_ || _); [untouched|].
  destruct (Cart_findOne (carts db) u) as [[i cart]|] eqn:Hfind;
    [|untouched].
  case_bool_decide; [untouched|].
  destruct (new_order _ _ _ _ _ _ _); [untouched|].
  unfold Order.save. destruct (Order.validate _); [|untouched].
  case_bool_decide; [untouched|].
  cbn. split_and!; [done|done|by apply prefix_app_r|by eapply written_in_place].
Qed.

Lemma handle_frame db c :
  let db' := snd (handle db c) in
  foods db' = foods db /\ shops db' = shops db
  /\ orders db `prefix_of` orders db'
  /\ only_open_cart_written (call_user c) (carts db) (carts db').
Proof.
  unfold handle. destruct (call_action c) as [m|body random].
  - destruct (mutate_frame db (mkRequest (call_user c) m (call_now c)))
      as (? & ? & Ho & ?).
    split_and!; [done|done|by rewrite Ho|done].
  - apply checkout_written.
Qed.

(** X2. Across any session of cart requests, checkout included, the
    catalogue is never written, no order is ever removed or altered,
    and no cart is ever deleted. *)
Theorem session_keeps_catalogue_and_orders (db : DB) (cs : list Call) :
  Forall (fun db' => foods db' = foods db /\ shops db' = shops db
                     /\ orders db `prefix_of` orders db'
                     /\ (length (carts db) <= length (carts db'))%nat)
         (run db cs).
Proof.
  revert db. induction cs as [|c cs IH]; intros db; cbn [run]; constructor.
  - destruct (handle_frame db c) as (? & ? & ? & [? _]). done.
  - destruct (handle_frame db c) as (Hf & Hs & Ho & [Hl _]).
    eapply Forall_impl; [apply IH|]. cbn. intros db2 (? & ? & ? & ?).
    split_and!; [congruence|congruence|by etrans|lia].
Qed.

(** X3. A stored cart that is checked out, or that belongs to a user who
    makes no call in the session, is at the same position with the
    same content after every call. *)
Theorem session_keeps_other_carts (db : DB) (cs : list Call) (j : nat) (c : Cart.t) :
  carts db !! j = Some c ->
  Cart.isCheckedOut c = true \/ Forall (fun call => call_user call <> Cart.user c) cs ->
  Forall (fun db' => carts db' !! j = Some c) (run db cs).
Proof.
  revert db. induction cs as [|call cs IH]; intros db Hj Hwho; cbn [run]; [constructor|].
  assert (carts (snd (handle db call)) !! j = Some c) as Hj'.
  { destruct (handle_frame db call) as (_ & _ & _ & [_ Hkeep]).
    apply Hkeep; [done|]. intros Hfind.
    apply list_find_Some in Hfind as (_ & [Hu Hopen] & _).
    destruct Hwho as [Hout|Hothers]; [congruence|].
    by apply Forall_cons in Hothers as [? _]. }
  constructor; [done|]. apply IH; [done|].
  destruct Hwho as [?|Hothers]; [by left|right].
  by apply Forall_cons in Hothers as [_ ?].
Qed.

Lemma session_keeps_other_carts_witness :
  Forall (fun db' => carts db' !! 0%nat = Some archived)
         (run with_archive [call (Mutate (UpdateItem 0 (Some 3%Q)));
                            call (Checkout (pay "cod") 7);
                            call (Mutate Clear)]).
Proof.
  apply (session_keeps_other_carts with_archive _ 0%nat archived).
  - reflexivity.
  - left. reflexivity.
Defined.


Lemma checkout_failure db u body now random :
  success (fst (checkout db u body now random)) = false ->
  snd (checkout db u body now random) = db.
Proof.
  unfold checkout, Order.save, Cart_save.
  repeat (match goal with
          | |- context [match ?x with _ => _ end] => destruct x eqn:?
          | |- context [if ?x then _ else _] => destruct x eqn:?
          end; cbn); try done.
Qed.



End CartFrame.

Section CartLines.












(** X7. Clearing always succeeds, leaves the user with an empty cart of
    total 0, and clearing again changes nothing but the time stamp. *)
Theorem clear_is_idempotent db u now now' :
  success (fst (clear db u now)) = true
  /\ data (get (snd (clear db u now)) u) = CartView [] 0%Q 0
  /\ snd (clear (snd (clear db u now)) u now') = snd (clear db u now').
Proof.
  unfold clear.
  destruct (Cart_findOne (carts db) u) as [[i cart]|] eqn:Hfind.
  - destruct (Cart_save now _ _ _ _) as [e|[c' cs']] eqn:Hsave; [done|].
    destruct (Cart_findOne_open _ _ _ _ Hfind) as [Hu Hopen].
    destruct (Cart_save_in_place now (carts db) u i cart (Cart.set_items [] cart) _ _ _
                Hfind Hu Hopen Hsave) as (-> & -> & Hf).
    unfold get, set_carts. cbn [fst snd carts]. rewrite !Hf.
    split; [done|]. split; [done|].
    cbn. by rewrite list_insert_insert_eq.
  - cbn. unfold get. by rewrite !Hfind.
Qed.

End CartLines.

Section CheckoutMore.


(** The order a successful checkout stored, with its identifier. *)
Lemma checkout_stored db u body now random :
  success (fst (checkout db u body now random)) = true ->
  exists address i cart order,
    Cart_findOne (carts db) u = Some (i, cart)
    /\ new_order db u cart (paymentMethod body) address (phoneNumber body) now = inr order
    /\ Order.validate order = true
    /\ Forall (fun p => Order.orderId p <> Order.orderId (Order.pre_save now random order))
              (orders db)
    /\ snd (checkout db u body now random)
       = {| foods := foods db; shops := shops db;
            carts := <[i := Cart.pre_save now (Cart.set_isCheckedOut true cart)]> (carts db);
            orders := orders db ++ [Order.pre_save now random order] |}.
Proof.
  unfold checkout.
  destruct (deliveryAddress body) as [address|]; [|done].
  destruct (_ || _); [done|].
  destruct (Cart_findOne (carts db) u) as [[i cart]|] eqn:Hfind; [|done].
  case_bool_decide; [done|].
  destruct (new_order _ _ _ _ _ _ _) as [e|order] eqn:Hnew; [done|].
  unfold Order.save.
  destruct (Order.validate order) eqn:Hval; [|done].
  case_bool_decide as Hdup; [done|].
  cbn. intros _. exists address, i, cart, order. split_and!; try done.
  by apply Forall_Exists_neg.
Qed.

Lemma new_order_id db u cart pm address phone now o :
  new_order db u cart pm address phone now = inr o -> Order.orderId o = None.
Proof. intros H. by destruct (new_order_fields _ _ _ _ _ _ _ _ H) as (_ & _ & _ & ? & _). Qed.



Lemma padStart3_length_check :
  forallb (fun k => Nat.eqb (String.length (Order.padStart3 (N.of_nat k))) 3) (seq 0 1000)
  = true.
Proof. vm_compute. reflexivity. Qed.

Lemma padStart3_length (n : N) : (n < 1000)%N -> String.length (Order.padStart3 n) = 3%nat.
Proof.
  intros Hn. pose proof padStart3_length_check as H.
  rewrite forallb_forall in H. specialize (H (N.to_nat n)).
  rewrite N2Nat.id in H. apply Nat.eqb_eq, H, in_seq. lia.
Qed.

(** X13. The order of a successful checkout is stored with the
    identifier "ORD", then the time in milliseconds, then three digits
    (for a random number below 1000); no order stored before has it. *)
Theorem checkout_order_id db u body now (random : N) :
  success (fst (checkout db u body now random)) = true ->
  (random < 1000)%N ->
  exists o suffix,
    orders (snd (checkout db u body now random)) = orders db ++ [o]
    /\ Order.orderId o = Some ("ORD" +:+ pretty now +:+ suffix)
    /\ String.length suffix = 3%nat
    /\ Forall (fun p => Order.orderId p <> Order.orderId o) (orders db).
Proof.
  intros Hok Hr.
  destruct (checkout_stored _ _ _ _ _ Hok) as (a & i & cart & o & _ & Hnew & _ & Hfresh & ->).
  exists (Order.pre_save now random o), (Order.padStart3 random).
  split_and!; [done| |by apply padStart3_length|done].
  unfold Order.pre_save. by rewrite (new_order_id _ _ _ _ _ _ _ _ Hnew).
Qed.

Lemma checkout_order_id_witness :
  exists o, orders (snd (checkout two_burgers "u1" (pay "cod") noon 7)) = [o]
            /\ Order.orderId o = Some "ORD1700000000000007".
Proof.
  destruct (checkout_order_id two_burgers "u1" (pay "cod") noon 7)
    as (o & suffix & Ho & Hid & _).
  - vm_compute. reflexivity.
  - reflexivity.
  - exists o. split; [exact Ho|].
    assert (orders (snd (checkout two_burgers "u1" (pay "cod") noon 7)) !! 0%nat = Some o)
      as Hlook by (by rewrite Ho).
    vm_compute in Hlook. injection Hlook as <-. reflexivity.
Defined.

(** X8. After a successful checkout of the user's only open cart the user
    has no open cart: the cart reads as empty and any further checkout
    is refused with status 400, so the cart cannot be ordered twice. *)
Theorem checkout_closes_the_cart db u body now random i cart :
  Cart_findOne (carts db) u = Some (i, cart) ->
  (forall j c, carts db !! j = Some c -> Cart.user c = u ->
               Cart.isCheckedOut c = false -> j = i) ->
  success (fst (checkout db u body now random)) = true ->
  let db' := snd (checkout db u body now random) in
  Cart_findOne (carts db') u = None
  /\ data (get db' u) = CartView [] 0%Q 0
  /\ forall body2 now2 random2,
       exists msg, checkout db' u body2 now2 random2 = (fail 400 msg, db').
Proof.
  intros Hfind Honly Hok.
  destruct (checkout_stored _ _ _ _ _ Hok) as (a & i' & cart' & o & Hfind' & _ & _ & _ & ->).
  rewrite Hfind in Hfind'. injection Hfind' as <- <-.
  cbn zeta.
  assert (Cart_findOne (<[i := Cart.pre_save now (Cart.set_isCheckedOut true cart)]> (carts db)) u
          = None) as Hnone.
  { apply list_find_None, Forall_lookup. intros j c Hj [Hu Hopen].
    destruct (decide (j = i)) as [->|Hne].
    - rewrite list_lookup_insert_eq in Hj.
      + by injection Hj as <-.
      + apply list_find_Some in Hfind as (Hi & _). by eapply lookup_lt_Some.
    - rewrite list_lookup_insert_ne in Hj by done. eauto. }
  split_and!.
  - exact Hnone.
  - unfold get. cbn [carts]. by rewrite Hnone.
  - intros body2 now2 random2. unfold checkout. cbn [carts]. rewrite Hnone.
    destruct (deliveryAddress body2); [|eauto].
    destruct (_ || _); eauto.
Qed.

Lemma checkout_closes_the_cart_witness :
  Cart_findOne (carts (snd (checkout two_burgers "u1" (pay "cod") noon 7))) "u1" = None.
Proof.
  apply (checkout_closes_the_cart two_burgers "u1" (pay "cod") noon 7 0%nat
           (cartOf [line 2 200] 200)).
  - reflexivity.
  - intros [|[|j]] c Hc; cbn in Hc; [reflexivity|discriminate|discriminate].
  - vm_compute. reflexivity.
Defined.

(** X9. A payment method outside 'cod', 'card', 'upi', 'wallet' never
    yields an order: the checkout fails and the store is unchanged. *)
Theorem checkout_refuses_unknown_payment_method db u body now random :
  paymentMethod body ∉ Order.paymentMethod_enum ->
  success (fst (checkout db u body now random)) = false
  /\ snd (checkout db u body now random) = db.
Proof.
  intros Hpm.
  assert (success (fst (checkout db u body now random)) = false) as Hfail.
  { destruct (success _) eqn:Hok; [|done]. exfalso.
    destruct (checkout_stored _ _ _ _ _ Hok) as (a & i & cart & o & _ & Hnew & Hval & _).
    destruct (new_order_fields _ _ _ _ _ _ _ _ Hnew)
      as (_ & _ & _ & _ & _ & _ & _ & _ & _ & Hm & _).
    unfold Order.validate in Hval. rewrite Hm in Hval.
    rewrite bool_decide_eq_false_2 in Hval by done.
    by rewrite !andb_false_r in Hval. }
  split; [done|]. by apply checkout_failure.
Qed.

Lemma checkout_refuses_unknown_payment_method_witness :
  snd (checkout two_burgers "u1" (pay "bitcoin") noon 7) = two_burgers.
Proof.
  apply (checkout_refuses_unknown_payment_method two_burgers "u1" (pay "bitcoin") noon 7).
  apply (bool_decide_unpack _). vm_compute. exact I.
Defined.

Lemma order_items_found db its os it :
  order_items db its = inr os -> it ∈ its ->
  is_Some (Food_findById (foods db) (CartItem.food it)).
Proof.
  revert os. induction its as [|x rest IH]; intros os H Hin; [by inversion Hin|].
  cbn in H. destruct (Food_findById _ (CartItem.food x)) as [f|] eqn:Hf; [|done].
  destruct (order_items db rest) as [e|os'] eqn:Hrest; [done|].
  apply elem_of_cons in Hin as [->|Hin]; [by rewrite Hf|eauto].
Qed.

(** X10. If a line of the cart refers to a food that is no longer in the
    catalogue, or the first line to a shop that is not, the checkout
    fails and nothing is stored. *)
Theorem checkout_aborts_on_missing_catalogue_entry db u body now random i cart :
  Cart_findOne (carts db) u = Some (i, cart) ->
  (exists it, it ∈ Cart.items cart /\ Food_findById (foods db) (CartItem.food it) = None)
  \/ (exists it rest, Cart.items cart = it :: rest
                      /\ Shop_findById (shops db) (CartItem.shop it) = None) ->
  success (fst (checkout db u body now random)) = false
  /\ snd (checkout db u body now random) = db.
Proof.
  intros Hfind Hmissing.
  assert (success (fst (checkout db u body now random)) = false) as Hfail.
  { destruct (success _) eqn:Hok; [|done]. exfalso.
    destruct (checkout_stored _ _ _ _ _ Hok) as (a & i' & cart' & o & Hfind' & Hnew & _).
    rewrite Hfind in Hfind'. injection Hfind' as <- <-.
    destruct (new_order_fields _ _ _ _ _ _ _ _ Hnew) as (_ & Hshop & Hitems & _).
    destruct Hmissing as [(it & Hin & Hnone)|(it & rest & Hits & Hnone)].
    - destruct (order_items_found _ _ _ _ Hitems Hin) as [f Hf]. congruence.
    - rewrite Hits in Hshop. cbn in Hshop. by rewrite Hnone in Hshop. }
  split; [done|]. by apply checkout_failure.
Qed.

Lemma checkout_aborts_on_missing_catalogue_entry_witness :
  snd (checkout orphan "u1" (pay "cod") noon 7) = orphan.
Proof.
  apply (checkout_aborts_on_missing_catalogue_entry orphan "u1" (pay "cod") noon 7 0%nat
           (cartOf [lineOf "f9" "s1" 1 40] 40)).
  - reflexivity.
  - left. exists (lineOf "f9" "s1" 1 40). split; [apply list_elem_of_singleton|]; reflexivity.
Defined.



End CheckoutMore.

Section Summary.
Import CartReports.

Lemma sum_subtotals_app (l1 l2 : list CartItem.t) :
  (sum_subtotals (l1 ++ l2) == sum_subtotals l1 + sum_subtotals l2)%Q.
Proof. induction l1 as [|x l1 IH]; cbn; [lra|rewrite IH; lra]. Qed.

Lemma push_at_keys k it acc : (push_at k it acc).*1 = acc.*1.
Proof.
  induction acc as [|[k' g] acc IH]; cbn; [done|].
  destruct (String.eqb_spec k' k); cbn; [done|by rewrite IH].
Qed.

Lemma push_at_grouped k it acc :
  CartItem.shop it = k -> k ∈ acc.*1 -> grouped acc ->
  grouped (push_at k it acc)
  /\ concat (items <$> (push_at k it acc).*2) ≡ₚ it :: concat (items <$> acc.*2).
Proof.
  intros Hit Hk [Hnd Hall]. split; [split|].
  - by rewrite push_at_keys.
  - clear Hnd Hk. induction Hall as [|[k' g] acc (Hkey & Hsum & Hshops) Hall IH]; cbn; [constructor|].
    destruct (String.eqb_spec k' k) as [->|Hne].
    + constructor; [|done]. cbn in *. split_and!; [done| |].
      * rewrite sum_subtotals_app, Hsum. cbn. lra.
      * apply Forall_app. split; [done|]. by constructor.
    + by constructor.
  - clear Hnd Hall. induction acc as [|[k' g] acc IH]; cbn in *; [by inversion Hk|].
    destruct (String.eqb_spec k' k) as [->|Hne]; cbn.
    + rewrite <- app_assoc. cbn.
      rewrite <- (Permutation_middle (items g) (concat (items <$> acc.*2)) it). done.
    + apply elem_of_cons in Hk as [?|Hk]; [congruence|].
      rewrite (IH Hk). symmetry. apply Permutation_middle.
Qed.

Lemma existsb_key k (acc : list (string * Group)) :
  existsb (fun kg => String.eqb kg.1 k) acc = true <-> k ∈ acc.*1.
Proof.
  rewrite existsb_exists, list_elem_of_fmap. split.
  - intros ([k' g] & Hin & Heq). cbn in Heq. apply String.eqb_eq in Heq as <-.
    exists (k', g). split; [done|].
    by apply list_elem_of_In.
  - intros ([k' g] & -> & Hin). exists (k', g). split; [by apply list_elem_of_In|].
    apply String.eqb_refl.
Qed.

Lemma group_step_grouped acc it s :
  Shop._id s = CartItem.shop it -> grouped acc ->
  grouped (group_step acc it s)
  /\ concat (items <$> (group_step acc it s).*2) ≡ₚ it :: concat (items <$> acc.*2).
Proof.
  intros Hs Hacc. unfold group_step.
  destruct (existsb _ acc) eqn:Hex.
  - apply push_at_grouped; [done|by apply existsb_key|done].
  - assert (Shop._id s ∉ acc.*1) as Hnew.
    { intros Hin%existsb_key. congruence. }
    set (g0 := {| shop := s; items := []; shopSubtotal := 0%Q |}).
    assert (grouped (acc ++ [(Shop._id s, g0)])) as Hacc1.
    { destruct Hacc as [Hnd Hall]. split.
      - rewrite fmap_app. apply NoDup_app. split_and!; [done| |apply NoDup_singleton].
        cbn. intros k Hk ->%list_elem_of_singleton. done.
      - apply Forall_app. split; [done|]. constructor; [|done].
        cbn. split_and!; [done|reflexivity|constructor]. }
    destruct (push_at_grouped (Shop._id s) it (acc ++ [(Shop._id s, g0)])) as [Hg Hperm];
      [done| |done|].
    { rewrite fmap_app. apply elem_of_app. right. cbn. apply list_elem_of_singleton. done. }
    split; [done|]. rewrite Hperm. rewrite !fmap_app, concat_app. cbn.
    by rewrite !app_nil_r.
Qed.

Lemma itemsByShop_grouped db its acc out :
  grouped acc -> itemsByShop db its acc = inr out ->
  grouped out /\ concat (items <$> out.*2) ≡ₚ concat (items <$> acc.*2) ++ its.
Proof.
  revert acc. induction its as [|it rest IH]; intros acc Hacc H; cbn in H.
  - simplify_eq. by rewrite app_nil_r.
  - destruct (Shop_findById _ _) as [s|] eqn:Hs; [|done].
    destruct (group_step_grouped acc it s (Shop_findById_id _ _ _ Hs) Hacc) as [Hg Hperm].
    destruct (IH _ Hg H) as [Hout Hp]. split; [done|].
    rewrite Hp, Hperm. cbn. apply Permutation_middle.
Qed.

(** X14. The summary splits the cart by shop: one group per shop, each
    holding lines of that shop only and the sum of their subtotals, and
    the groups together hold every line of the cart exactly once. *)
Theorem summary_groups_by_shop db u s :
  summary db u = Json s ->
  exists i cart,
    Cart_findOne (carts db) u = Some (i, cart)
    /\ totalItems s = length (Cart.items cart)
    /\ NoDup ((fun g => Shop._id (shop g)) <$> groups s)
    /\ Forall (fun g => Forall (fun it => CartItem.shop it = Shop._id (shop g)) (items g)
                        /\ (shopSubtotal g == sum_subtotals (items g))%Q)
              (groups s)
    /\ concat (items <$> groups s) ≡ₚ Cart.items cart.
Proof.
  unfold summary.
  destruct (Cart_findOne (carts db) u) as [[i cart]|]; [|done].
  case_bool_decide; [done|].
  destruct (itemsByShop db (Cart.items cart) []) as [e|acc] eqn:Hacc; [done|].
  intros [= <-]. exists i, cart. cbn.
  destruct (itemsByShop_grouped db (Cart.items cart) [] acc) as [[Hnd Hall] Hperm];
    [split; constructor|done|].
  split_and!; [done|done| | |done].
  - assert ((fun g => Shop._id (shop g)) <$> List.map snd acc = acc.*1) as ->; [|done].
    clear Hnd Hperm Hacc. induction Hall as [|[k g] acc (Hk & _) _ IH]; cbn in *; [done|].
    by rewrite IH, Hk.
  - clear Hnd Hperm Hacc. induction Hall as [|[k g] acc (Hk & Hsum & Hshops) _ IH]; cbn in *;
      constructor; [|done].
    split; [|done]. by rewrite <- Hk.
Qed.

Lemma summary_groups_by_shop_witness :
  exists s, CartReports.summary two_shops "u1" = CartReports.Json s
            /\ length (CartReports.groups s) = 2%nat
            /\ concat (CartReports.items <$> CartReports.groups s) ≡ₚ Cart.items mixed_cart.
Proof.
  assert (exists s, CartReports.summary two_shops "u1" = CartReports.Json s) as [s Hs].
  { eexists. vm_compute. reflexivity. }
  destruct (summary_groups_by_shop two_shops "u1" s Hs)
    as (i & cart & Hfind & _ & _ & _ & Hperm).
  injection Hfind as _ <-.
  exists s. split_and!; [exact Hs| |exact Hperm].
  vm_compute in Hs. injection Hs as <-. reflexivity.
Defined.

(** X15. The summary quotes what the checkout charges: for the same
    store, the total, fee, taxes and grand total of the summary are
    those of the order a successful checkout creates. *)
Theorem summary_quotes_the_order db u s body now random :
  summary db u = Json s ->
  success (fst (checkout db u body now random)) = true ->
  exists o,
    orders (snd (checkout db u body now random)) = orders db ++ [o]
    /\ Order.totalAmount o = totalAmount s
    /\ Order.deliveryFee o = deliveryFee s
    /\ Order.taxes o = taxes s
    /\ Order.grandTotal o = grandTotal s
    /\ length (Order.items o) = totalItems s.
Proof.
  intros Hs Hok.
  destruct (checkout_stored _ _ _ _ _ Hok) as (a & i & cart & o & Hfind & Hnew & _ & _ & ->).
  destruct (new_order_fields _ _ _ _ _ _ _ _ Hnew)
    as (_ & _ & Hits & _ & Htot & Hfee & Htax & Hgrand & _).
  destruct (Order_pre_save_fields now random o) as (_ & _ & Ei & Et & Ef & Ex & Eg & _).
  exists (Order.pre_save now random o). cbn [orders].
  rewrite Ei, Et, Ef, Ex, Eg, Hgrand, Htax, Hfee, Htot.
  unfold summary in Hs. rewrite Hfind in Hs.
  case_bool_decide; [done|].
  destruct (itemsByShop _ _ _); [done|]. injection Hs as <-. cbn.
  split_and!; try done.
  eapply Forall2_length, order_items_same, Hits.
Qed.

Lemma summary_quotes_the_order_witness :
  exists s o,
    CartReports.summary two_shops "u1" = CartReports.Json s
    /\ orders (snd (checkout two_shops "u1" (pay "card") noon 7)) = [o]
    /\ Order.grandTotal o = CartReports.grandTotal s.
Proof.
  assert (exists s, CartReports.summary two_shops "u1" = CartReports.Json s) as [s Hs].
  { eexists. vm_compute. reflexivity. }
  destruct (summary_quotes_the_order two_shops "u1" s (pay "card") noon 7 Hs)
    as (o & Ho & _ & _ & _ & Hgrand & _).
  - vm_compute. reflexivity.
  - exists s, o. split_and!; assumption.
Defined.

(** X16. The count of the navigation badge is the item count of GET /
    and, when there is a summary, its [totalItems]; it is 0 exactly
    when the summary and the checkout answer "Cart is empty". *)
Theorem count_agrees db u :
  (exists its total, data (get db u) = CartView its total (count db u))
  /\ (forall s, summary db u = Json s -> totalItems s = count db u)
  /\ (count db u = 0%nat <-> summary db u = Error 400 "Cart is empty").
Proof.
  unfold get, count, summary.
  destruct (Cart_findOne (carts db) u) as [[i cart]|]; cbn.
  - split; [eauto|]. case_bool_decide as Hlen.
    + split; [done|]. done.
    + destruct (itemsByShop _ _ _); split; try done.
      * intros s [= <-]. done.
  - split; [eauto|]. split; done.
Qed.

End Summary.

Section Delivery.
Import ShopRouter.

Lemma Math_round_mono (x y : Q) : (x <= y)%Q -> (Math_round x <= Math_round y)%Q.
Proof.
  intros H. unfold Math_round. rewrite <- Zle_Qle. apply Qfloor_resp_le. lra.
Qed.

Lemma Math_round_le_iff (x : Q) (n : Z) :
  (Math_round x <= inject_Z n)%Q <-> (x + (1 # 2) < inject_Z (n + 1))%Q.
Proof.
  unfold Math_round. rewrite <- Zle_Qle. split.
  - intros H. eapply Qlt_le_trans; [apply Qlt_floor|]. rewrite <- Zle_Qle. lia.
  - intros H. assert (Qfloor (x + (1 # 2)) < n + 1)%Z; [|lia].
    rewrite Zlt_Qlt. eapply Qle_lt_trans; [apply Qfloor_le|done].
Qed.

Lemma estimatedDeliveryTime_range (km : Number) :
  (20 <= estimatedDeliveryTime km)%Q /\ (estimatedDeliveryTime km <= 60)%Q.
Proof.
  unfold estimatedDeliveryTime. split.
  - apply Q.le_max_l.
  - apply Q.max_lub; [lra|apply Q.le_min_l].
Qed.

(** X17. The estimated delivery time lies between 20 and 60 minutes,
    never decreases with the distance, is 20 at distance 0, and is at
    most 30 (the fast-delivery filter) exactly below 31/6 km. *)
Theorem estimatedDeliveryTime_bounds (km km' : Number) :
  (20 <= estimatedDeliveryTime km)%Q
  /\ (estimatedDeliveryTime km <= 60)%Q
  /\ ((km <= km')%Q -> (estimatedDeliveryTime km <= estimatedDeliveryTime km')%Q)
  /\ (estimatedDeliveryTime 0 == 20)%Q
  /\ ((estimatedDeliveryTime km <= 30)%Q <-> (km < 31 # 6)%Q).
Proof.
  destruct (estimatedDeliveryTime_range km) as [Hlo Hhi].
  unfold estimatedDeliveryTime in *. split_and!.
  - exact Hlo.
  - exact Hhi.
  - intros H. apply Q.max_le_compat_l, Q.min_le_compat_l.
    pose proof (Math_round_mono (km * 3) (km' * 3)). lra.
  - reflexivity.
  - rewrite Q.max_lub_iff, Q.min_le_iff.
    assert (Math_round (km * 3) + 15 <= 30 <-> Math_round (km * 3) <= inject_Z 15)%Q as ->.
    { change (inject_Z 15) with 15%Q. split; lra. }
    rewrite Math_round_le_iff. change (inject_Z (15 + 1)) with 16%Q.
    split; [intros [_ [?|?]]; lra|intros ?; split; [lra|right; lra]].
Qed.

(** X18. The delivery charge by distance is never below the shop's
    charge, never decreases with the distance, is the shop's charge up
    to 5.5 km (the surcharge is rounded), and is at least 2 more from
    5.5 km on. *)
Theorem distance_charge_bounds (d d' c : Number) :
  (c <= distance_charge d c)%Q
  /\ ((d <= d')%Q -> (distance_charge d c <= distance_charge d' c)%Q)
  /\ ((d < 11 # 2)%Q -> (distance_charge d c == c)%Q)
  /\ ((11 # 2 <= d)%Q -> (c + 2 <= distance_charge d c)%Q).
Proof.
  assert (forall x : Q, (5 < x)%Q -> (0 <= Math_round (x - 5))%Q) as Hpos.
  { intros x Hx. change 0%Q with (Math_round 0). apply Math_round_mono. lra. }
  unfold distance_charge, Qlt_bool. split_and!.
  - destruct (Qle_bool d 5) eqn:E; cbn; [lra|].
    assert (5 < d)%Q by (apply Qnot_le_lt; intros ?%Qle_bool_iff; congruence).
    specialize (Hpos d). lra.
  - intros Hdd. destruct (Qle_bool d 5) eqn:E; destruct (Qle_bool d' 5) eqn:E'; cbn.
    + lra.
    + assert (5 < d')%Q by (apply Qnot_le_lt; intros ?%Qle_bool_iff; congruence).
      specialize (Hpos d'). lra.
    + apply Qle_bool_iff in E'.
      assert (5 < d)%Q by (apply Qnot_le_lt; intros ?%Qle_bool_iff; congruence). lra.
    + pose proof (Math_round_mono (d - 5) (d' - 5)). lra.
  - intros Hd. destruct (Qle_bool d 5) eqn:E; cbn; [reflexivity|].
    assert (5 < d)%Q by (apply Qnot_le_lt; intros ?%Qle_bool_iff; congruence).
    assert (Math_round (d - 5) <= inject_Z 0)%Q as H0.
    { apply Math_round_le_iff. change (inject_Z (0 + 1)) with 1%Q. lra. }
    change (inject_Z 0) with 0%Q in H0. specialize (Hpos d).
    assert (Math_round (d - 5) == 0)%Q as -> by lra. lra.
  - intros Hd. destruct (Qle_bool d 5) eqn:E; cbn.
    + apply Qle_bool_iff in E. lra.
    + pose proof (Math_round_mono (1 # 2) (d - 5)) as H1.
      change (Math_round (1 # 2)) with 1%Q in H1. lra.
Qed.

End Delivery.

Section ShopMore.


Lemma Ascii_compare_refl (a : Ascii.ascii) : Ascii.compare a a = Eq.
Proof. unfold Ascii.compare. apply N.compare_refl. Qed.

Lemma String_compare_refl (s : string) : String.compare s s = Eq.
Proof. induction s as [|a s IH]; cbn; [done|]. by rewrite Ascii_compare_refl. Qed.

Lemma String_compare_trans_lt (s1 s2 s3 : string) :
  String.compare s1 s2 = Lt -> String.compare s2 s3 = Lt -> String.compare s1 s3 = Lt.
Proof.
  revert s2 s3. induction s1 as [|a s1 IH]; intros [|b s2] [|c s3]; cbn; try done.
  unfold Ascii.compare.
  destruct (N.compare_spec (Ascii.N_of_ascii a) (Ascii.N_of_ascii b)) as [Hab|Hab|Hab];
    destruct (N.compare_spec (Ascii.N_of_ascii b) (Ascii.N_of_ascii c)) as [Hbc|Hbc|Hbc];
    try done; intros H12 H23.
  - rewrite Hab, Hbc, N.compare_refl. eauto.
  - rewrite Hab. by rewrite (proj2 (N.compare_lt_iff _ _) Hbc).
  - rewrite <- Hbc. by rewrite (proj2 (N.compare_lt_iff _ _) Hab).
  - assert (Ascii.N_of_ascii a < Ascii.N_of_ascii c)%N as Hac by lia.
    by rewrite (proj2 (N.compare_lt_iff _ _) Hac).
Qed.

Lemma String_leb_trans (s1 s2 s3 : string) :
  String.leb s1 s2 = true -> String.leb s2 s3 = true -> String.leb s1 s3 = true.
Proof.
  unfold String.leb.
  destruct (String.compare s1 s2) eqn:E12; [|
    |done]; destruct (String.compare s2 s3) eqn:E23; try done; intros _ _.
  - apply String.compare_eq_iff in E12 as ->. by rewrite E23.
  - apply String.compare_eq_iff in E12 as ->. by rewrite E23.
  - apply String.compare_eq_iff in E23 as <-. by rewrite E12.
  - by rewrite (String_compare_trans_lt _ _ _ E12 E23).
Qed.

(** X21. Opening hours are a closed interval of strings: the shop reads
    open at its opening and at its closing time, and a shop whose
    closing time sorts before its opening time (hours past midnight)
    never reads open. *)
Theorem isCurrentlyOpen_interval (openTime closeTime : string) :
  (String.leb openTime closeTime = true ->
   isCurrentlyOpen openTime closeTime openTime = true
   /\ isCurrentlyOpen openTime closeTime closeTime = true)
  /\ (String.ltb closeTime openTime = true ->
      forall currentTime, isCurrentlyOpen openTime closeTime currentTime = false).
Proof.
  unfold isCurrentlyOpen. split.
  - intros H. rewrite H. unfold String.leb. by rewrite !String_compare_refl.
  - intros Hlt t.
    destruct (String.leb openTime t) eqn:H1; [|done].
    destruct (String.leb t closeTime) eqn:H2; [|done].
    pose proof (String_leb_trans _ _ _ H1 H2) as H.
    unfold String.ltb in Hlt. unfold String.leb in H.
    rewrite String.compare_antisym in H.
    destruct (String.compare closeTime openTime); done.
Qed.

End ShopMore.

Section TrendingMore.
Import Trending.




End TrendingMore.

Section RecommendationFacts.
Import Recommendations.

Lemma Set_spread_from (set xs : list string) :
  NoDup set ->
  let out := foldl (fun set x => if bool_decide (x ∈ set) then set else set ++ [x]) set xs in
  NoDup out /\ set `prefix_of` out /\ (forall x, x ∈ out <-> x ∈ set \/ x ∈ xs).
Proof.
  revert set. induction xs as [|x xs IH]; intros set Hnd; cbn.
  - split_and!; [done|done|]. intros x. rewrite elem_of_nil. tauto.
  - case_bool_decide as Hx.
    + destruct (IH set Hnd) as (? & ? & Hin). split_and!; [done|done|].
      intros y. rewrite Hin, elem_of_cons. split; [tauto|]. intros [?|[->|?]]; tauto.
    + assert (NoDup (set ++ [x])) as Hnd'.
      { apply NoDup_app. split_and!; [done| |apply NoDup_singleton].
        intros y Hy ->%list_elem_of_singleton. done. }
      destruct (IH (set ++ [x]) Hnd') as (? & Hpre & Hin).
      split_and!; [done|by etrans; [apply prefix_app_r|]|].
      intros y. rewrite Hin, elem_of_app, list_elem_of_singleton, elem_of_cons. tauto.
Qed.

Lemma Set_spread_spec (xs : list string) :
  NoDup (Set_spread xs) /\ (forall x, x ∈ Set_spread xs <-> x ∈ xs).
Proof.
  destruct (Set_spread_from [] xs (NoDup_nil_2)) as (? & _ & Hin). split; [done|].
  intros x. rewrite Hin, elem_of_nil. tauto.
Qed.

Lemma Set_spread_head (x : string) (xs : list string) :
  exists rest, Set_spread (x :: xs) = x :: rest.
Proof.
  unfold Set_spread. cbn. rewrite bool_decide_eq_false_2 by apply not_elem_of_nil.
  destruct (Set_spread_from ([] ++ [x]) xs (NoDup_singleton x)) as (_ & [rest Hrest] & _).
  exists rest. exact Hrest.
Qed.

Lemma top5_distinct (xs : list string) : (length (top5 xs) <= 5)%nat /\ NoDup (top5 xs).
Proof.
  destruct (Set_spread_spec xs) as [Hnd _]. unfold top5. split.
  - rewrite length_take. lia.
  - eapply sublist_NoDup; [exact Hnd|apply sublist_take].
Qed.

Lemma preferences_from (populated : list (option (list string * list string))) acc :
  foldl (fun acc shopId =>
           match shopId with
           | Some (cuisine, menuCategory) => (acc.1 ++ cuisine, acc.2 ++ menuCategory)
           | None => acc
           end) acc populated
  = (acc.1 ++ concat (fst <$> omap id populated),
     acc.2 ++ concat (snd <$> omap id populated)).
Proof.
  revert acc. induction populated as [|[[c m]|] rest IH]; intros [a b]; cbn.
  - by rewrite !app_nil_r.
  - rewrite IH. cbn. by rewrite !app_assoc.
  - apply IH.
Qed.

Lemma preferences_spec (populated : list (option (list string * list string))) :
  preferences populated
  = (concat (fst <$> omap id populated), concat (snd <$> omap id populated)).
Proof. unfold preferences. by rewrite preferences_from. Qed.

(** X23. The top cuisines and categories of a user are at most five
    distinct values each, every one a tag of a shop of the user's
    delivered orders; orders whose shop is gone count for nothing, and
    the first tag of the first such shop always comes first. *)
Theorem top_preferences_spec (populated : list (option (list string * list string))) :
  let topCuisines := top5 (preferences populated).1 in
  let topCategories := top5 (preferences populated).2 in
  (length topCuisines <= 5)%nat /\ (length topCategories <= 5)%nat
  /\ NoDup topCuisines /\ NoDup topCategories
  /\ (forall x, x ∈ topCuisines -> exists c m, Some (c, m) ∈ populated /\ x ∈ c)
  /\ (forall x, x ∈ topCategories -> exists c m, Some (c, m) ∈ populated /\ x ∈ m)
  /\ (forall x c m rest, populated = Some (x :: c, m) :: rest -> head topCuisines = Some x)
  /\ preferences (None :: populated) = preferences populated.
Proof.
  cbn zeta. rewrite preferences_spec. cbn [fst snd].
  destruct (top5_distinct (concat (fst <$> omap id populated))) as [? ?].
  destruct (top5_distinct (concat (snd <$> omap id populated))) as [? ?].
  split_and!; try done.
  - intros x Hx%subseteq_take. apply (proj1 (proj2 (Set_spread_spec _) _)) in Hx.
    apply list_elem_of_In, in_concat in Hx as (c & Hc%list_elem_of_In & Hxc%list_elem_of_In).
    apply list_elem_of_fmap in Hc as ([c' m] & -> & Hcm).
    apply list_elem_of_omap in Hcm as (o & Ho & Hsome). cbn in Hsome. subst o.
    exists c', m. done.
  - intros x Hx%subseteq_take. apply (proj1 (proj2 (Set_spread_spec _) _)) in Hx.
    apply list_elem_of_In, in_concat in Hx as (m & Hm%list_elem_of_In & Hxm%list_elem_of_In).
    apply list_elem_of_fmap in Hm as ([c m'] & -> & Hcm).
    apply list_elem_of_omap in Hcm as (o & Ho & Hsome). cbn in Hsome. subst o.
    exists c, m'. done.
  - intros x c m rest ->. unfold top5.
    change (concat (fst <$> omap id (Some (x :: c, m) :: rest)))
      with (x :: (c ++ concat (fst <$> omap id rest))).
    destruct (Set_spread_head x (c ++ concat (fst <$> omap id rest))) as [r ->]. done.
  - by rewrite !preferences_spec.
Qed.

Lemma setIntersection_size_le (xs ys : list string) :
  NoDup ys -> (setIntersection_size xs ys <= length ys)%nat.
Proof.
  intros Hys. unfold setIntersection_size.
  destruct (Set_spread_spec (List.filter (fun x => bool_decide (x ∈ ys)) xs)) as [Hnd Hin].
  apply submseteq_length, NoDup_submseteq; [done|].
  intros x Hx%Hin. apply list_elem_of_In, filter_In in Hx as [_ Hx].
  by apply bool_decide_eq_true in Hx.
Qed.

(** X24. The match score is at most the number of top cuisines plus the
    number of top categories plus 3, so at most 13; for a user without
    history it is at most 3 and the reason given is never "Based on
    your preferences". *)
Theorem matchScore_bounds (cuisine menuCategory history1 history2 : list string)
    (average : Number) (isFeatured : bool) :
  (matchScore cuisine menuCategory average isFeatured (top5 history1) (top5 history2)
   <= 13)%nat
  /\ (matchScore cuisine menuCategory average isFeatured (top5 []) (top5 []) <= 3)%nat
  /\ recommendationReason
       (matchScore cuisine menuCategory average isFeatured (top5 []) (top5 [])) average
     <> "Based on your preferences".
Proof.
  assert (forall xs h, (setIntersection_size xs (top5 h) <= length (top5 h))%nat) as Hle.
  { intros xs h. apply setIntersection_size_le. by destruct (top5_distinct h). }
  assert (matchScore cuisine menuCategory average isFeatured (top5 []) (top5 []) <= 3)%nat
    as H3.
  { unfold matchScore. pose proof (Hle cuisine []). pose proof (Hle menuCategory []).
    cbn in *. destruct (Qle_bool 4 average), isFeatured; lia. }
  split_and!.
  - unfold matchScore.
    pose proof (Hle cuisine history1). pose proof (Hle menuCategory history2).
    destruct (top5_distinct history1) as (? & _). destruct (top5_distinct history2) as (? & _).
    destruct (Qle_bool 4 average), isFeatured; lia.
  - exact H3.
  - unfold recommendationReason.
    destruct (Nat.ltb_spec 3
      (matchScore cuisine menuCategory average isFeatured (top5 []) (top5 []))); [lia|].
    by destruct (Qle_bool 4 average).
Qed.

End RecommendationFacts.
